(** * tap-dataverse: [DataverseTableStream] (src/tap_dataverse/streams.py)

    A shallow embedding of the stream class of the Dataverse tap: bookmark
    resolution ([get_starting_timestamp]), request parameter construction
    ([get_url_params]), record extraction ([parse_response]) and record
    post-processing ([post_process]).

    Python values are modelled as follows.
    - [str] is [string]; a [dict] from [str] to [str] (the request
      parameters) is a [gmap string string], since only lookups matter;
    - a record (a [dict] whose insertion order decides which of two colliding
      fields survives a renaming) is an insertion-ordered association list;
    - exceptions and logging are threaded through a small writer/error monad;
    - the collaborators that live outside the file (pendulum, urllib, the
      JSONPath library, the identifier sanitizer) are operational type
      classes, with executable reference instances for running the stream on
      concrete inputs. *)

From Stdlib Require Import ZArith Ascii String DecimalString.
From stdpp Require Import gmap strings list fin_maps.

Local Open Scope string_scope.
Local Open Scope Z_scope.

(** ** Python strings *)

Module PyStr.

(** [sep in s] for a one-character [sep]. *)
Fixpoint contains (sep : ascii) (s : string) : bool :=
  match s with
  | EmptyString => false
  | String c s' => if Ascii.eqb c sep then true else contains sep s'
  end.

(** [s.split(sep)] for a one-character [sep]: never the empty list, and
    [len(result) = 1 + s.count(sep)]. *)
Fixpoint split (sep : ascii) (s : string) : list string :=
  match s with
  | EmptyString => [EmptyString]
  | String c s' =>
      if Ascii.eqb c sep then EmptyString :: split sep s'
      else match split sep s' with
           | [] => [String c EmptyString]
           | w :: ws => String c w :: ws
           end
  end.

(** [s.split(sep, 1)]: cut at the first [sep], or [None] when [sep] does
    not occur (Python then returns the one-element list [[s]]). *)
Fixpoint split1 (sep : ascii) (s : string) : option (string * string) :=
  match s with
  | EmptyString => None
  | String c s' =>
      if Ascii.eqb c sep then Some (EmptyString, s')
      else match split1 sep s' with
           | Some (k, v) => Some (String c k, v)
           | None => None
           end
  end.

(** [s.replace(a, b)] for one-character [a] and [b]. *)
Fixpoint replace (a b : ascii) (s : string) : string :=
  match s with
  | EmptyString => EmptyString
  | String c s' => String (if Ascii.eqb c a then b else c) (replace a b s')
  end.

(** Truthiness of a [str]: [bool(s)]. *)
Definition truthy (s : string) : bool :=
  match s with EmptyString => false | _ => true end.

(** [str(n)] for an [int]. *)
Definition of_Z (n : Z) : string := NilZero.string_of_int (Z.to_int n).

(** [w] zeros. *)
Fixpoint zeros (w : nat) : string :=
  match w with
  | O => EmptyString
  | S w' => String "0" (zeros w')
  end.

(** ["%0wd" % n]: the decimal digits of [n], with zeros in front up to the
    width [w]; a longer number is not cut. *)
Definition zero_padded (w : nat) (n : Z) : string :=
  zeros (w - String.length (of_Z n)) +:+ of_Z n.

End PyStr.

(** ** Scalars kept in the state store *)

(** The stored replication-key value is whatever JSON scalar the framework
    wrote: a string for timestamp keys, an integer for version-like keys. *)
Inductive pyval : Type :=
  | PStr (s : string)
  | PInt (n : Z).

(** [str(v)], as used by an f-string. *)
Definition pyval_str (v : pyval) : string :=
  match v with
  | PStr s => s
  | PInt n => PyStr.of_Z n
  end.

(** [bool(v)]. *)
Definition pyval_truthy (v : pyval) : bool :=
  match v with
  | PStr s => PyStr.truthy s
  | PInt n => negb (n =? 0)
  end.

(** ** Exceptions, logging, and the monad that threads them *)

Inductive exn_class : Type :=
  | ValueError
  | ParserError      (* pendulum.parsing.exceptions.ParserError(ValueError) *)
  | AttributeError
  | TypeError
  | OtherException.

Record exn : Type := Exn { exn_cls : exn_class; exn_msg : string }.

(** [isinstance(e, (ValueError, AttributeError))], the handler of
    [get_url_params]. *)
Definition is_ValueError_or_AttributeError (e : exn) : bool :=
  match exn_cls e with
  | ValueError | ParserError | AttributeError => true
  | TypeError | OtherException => false
  end.

Inductive log_entry : Type :=
  | LogWarning (msg : string)
  | LogInfo (msg : string)
  | LogInfoParams (params : gmap string string).

(** A computation writes log entries and then either raises or returns. *)
Definition M (A : Type) : Type := (list log_entry * (exn + A))%type.

Definition raise {A} (e : exn) : M A := ([], inl e).
Definition log (l : log_entry) : M unit := ([l], inr tt).

#[global] Instance M_ret : MRet M := fun A a => ([], inr a).

#[global] Instance M_bind : MBind M := fun A B k m =>
  match m with
  | (w, inl e) => (w, inl e)
  | (w, inr a) => let '(w', r) := k a in ((w ++ w')%list, r)
  end.

(** [try: body  except (ValueError, AttributeError): handler]. *)
Definition try_except {A} (body : M A) (handler : M A) : M A :=
  match body with
  | (w, inl e) =>
      if is_ValueError_or_AttributeError e
      then let '(w', r) := handler in ((w ++ w')%list, r)
      else (w, inl e)
  | (w, inr a) => (w, inr a)
  end.

(** [try: body  except Exception: handler]: every modelled class derives
    from [Exception]. *)
Definition try_except_Exception {A} (body : M A) (handler : M A) : M A :=
  match body with
  | (w, inl _) => let '(w', r) := handler in ((w ++ w')%list, r)
  | (w, inr a) => (w, inr a)
  end.

Definition logs {A} (m : M A) : list log_entry := fst m.
Definition outcome {A} (m : M A) : exn + A := snd m.

(** ** Timestamps *)

Record DateTime : Type := mkDateTime {
  year : Z; month : Z; day : Z;
  hour : Z; minute : Z; second : Z;
  microsecond : Z
}.

(** [dt.strftime("%Y-%m-%dT%H:%M:%S.%fZ")], as CPython prints it on glibc:
    the year as it is (999 is "999", not "0999"), month, day, hour, minute
    and second padded to two digits, the microseconds to six, and a literal
    trailing [Z]; the time zone of [dt] plays no part. *)
Definition strftime (dt : DateTime) : string :=
  PyStr.of_Z (year dt) +:+ "-" +:+ PyStr.zero_padded 2 (month dt) +:+ "-" +:+
  PyStr.zero_padded 2 (day dt) +:+ "T" +:+ PyStr.zero_padded 2 (hour dt) +:+
  ":" +:+ PyStr.zero_padded 2 (minute dt) +:+ ":" +:+
  PyStr.zero_padded 2 (second dt) +:+ "." +:+
  PyStr.zero_padded 6 (microsecond dt) +:+ "Z".

(** What [pendulum.parse] can return: a [DateTime], with the offset of its
    time zone from UTC in minutes, or a [Duration] or [Interval], which is
    falsy when of zero length and has no [strftime]. *)
Inductive parsed : Type :=
  | ParsedDateTime (dt : DateTime) (utcoffset : Z)
  | ParsedSpan (nonzero : bool).

(** [bool(p)]: a [DateTime] is always truthy. *)
Definition parsed_truthy (p : parsed) : bool :=
  match p with
  | ParsedDateTime _ _ => true
  | ParsedSpan nonzero => nonzero
  end.

(** ** Collaborators outside the file *)

(** [pendulum.parse]: the object read, or the exception it raises. Text
    that pendulum cannot read raises [ParserError], a subclass of
    [ValueError]. *)
Class PendulumParse : Type :=
  pendulum_parse : pyval -> exn + parsed.

(** [urllib.parse.unquote], the percent-decoder behind [parse_qsl]. *)
Class Unquote : Type :=
  unquote : string -> string.

(** [tap_dataverse.utils.sql_attribute_name], the identifier sanitizer. *)
Class SqlAttributeName : Type :=
  sql_attribute_name : string -> string.

(** Run a collaborator that may raise inside [M]. *)
Definition lift {A} (r : exn + A) : M A := ([], r).

(** ** Configuration and the stream object *)

(** The tap-wide configuration; a missing key is [None]. *)
Record TapConfig : Type := {
  tap_start_date : option string;
  tap_replication_key : option string;
  tap_sql_attribute_names : bool;     (* truthiness of config.get(...) *)
  tap_annotations : bool
}.

(** The per-stream configuration dictionary; a missing key is [None]. *)
Record StreamConfig : Type := {
  sc_name : option string;
  sc_query_params : option string;
  sc_start_date : option string;
  sc_replication_key : option string
}.

(** [d.get(k, default)]. *)
Definition get_default {A} (o : option A) (default : A) : A :=
  match o with Some a => a | None => default end.

(** JSON values of a response body; a number that is not an integer is kept
    as the decimal it was written as, [mantissa * 10 ^ exponent]. *)
#[warnings="-register-all"]
Inductive json : Type :=
  | JNull
  | JBool (b : bool)
  | JInt (n : Z)
  | JFloat (mantissa exponent : Z)
  | JStr (s : string)
  | JArr (items : list json)
  | JObj (fields : list (string * json)).

(** JSONPath expressions, as far as [records_path] needs them. *)
Inductive jsonpath : Type :=
  | Root
  | Fields (name : string)
  | Slice                                   (* [*] *)
  | Child (l r : jsonpath).

(** What the framework's JSONPath library makes of [[*]] applied to a value
    that is not an array (an object, a scalar, [null]). *)
Class SliceNonArray : Type :=
  slice_non_array : json -> list json.

Record DataverseTableStream : Type := {
  config : TapConfig;
  name : option string;
  path : string;
  records_path : jsonpath;
  custom_query_params : string;
  start_date : string;
  replication_key : option string;
  (** Framework property: the schema types the replication key as a
      date-time. *)
  is_timestamp_replication_key : bool
}.

(** [__init__]; [key_is_timestamp] is what the framework derives from the
    schema. *)
Definition init (tap : TapConfig) (stream_config : StreamConfig)
    (entity_set_name : string) (key_is_timestamp : bool) : DataverseTableStream :=
  let replication_key_value :=
    get_default (sc_replication_key stream_config)
                (get_default (tap_replication_key tap) "") in
  {| config := tap;
     name := sc_name stream_config;
     path := "/" +:+ entity_set_name;
     (* "$.value[*]" *)
     records_path := Child (Child Root (Fields "value")) Slice;
     custom_query_params := get_default (sc_query_params stream_config) "";
     start_date :=
       get_default (sc_start_date stream_config)
                   (get_default (tap_start_date tap) "");
     replication_key :=
       if PyStr.truthy replication_key_value
       then Some replication_key_value else None;
     is_timestamp_replication_key := key_is_timestamp |}.

(** [str(self.replication_key)] and [bool(self.replication_key)]. *)
Definition replication_key_str (self : DataverseTableStream) : string :=
  get_default (replication_key self) "None".

Definition replication_key_truthy (self : DataverseTableStream) : bool :=
  match replication_key self with
  | Some k => PyStr.truthy k
  | None => false
  end.

(** The double quote character, for header values. *)
Definition dquote : string := String "034"%char EmptyString.

(** [http_headers]; [super_http_headers] is what the base class returns. *)
Definition http_headers (self : DataverseTableStream)
    (super_http_headers : gmap string string) : gmap string string :=
  let headers := super_http_headers in
  if tap_annotations (config self)
  then <["Prefer" := "odata.include-annotations=" +:+ dquote +:+ "*" +:+ dquote]>
         headers
  else headers.

(** A continuation token: [urllib.parse.ParseResult], a six-field named
    tuple (hence always truthy). *)
Record ParseResult : Type := {
  scheme : string; netloc : string; url_path : string;
  url_params : string; query : string; fragment : string
}.

(** ** Bookmark resolution *)

Section Bookmark.
Context {parser : PendulumParse}.

(** [get_starting_timestamp]; [state] is what
    [get_starting_replication_key_value(context)] returns. *)
Definition get_starting_timestamp (self : DataverseTableStream)
    (state : option pyval) : M (option parsed) :=
  let value := state in
  if bool_decide (value = None) && PyStr.truthy (start_date self) then
    try_except_Exception
      (parsed ← lift (pendulum_parse (PStr (start_date self)));
       mret (Some parsed))
      (log (LogWarning ("Invalid start_date format: " +:+ start_date self));;
       mret None)
  else
    match value with
    | Some v =>
        if negb (is_timestamp_replication_key self) then
          raise (Exn ValueError
                   ("The replication key " +:+ replication_key_str self +:+
                    " is not of timestamp type"))
        else
          parsed ← lift (pendulum_parse v);
          mret (Some parsed)
    | None => mret None
    end.

(** [bool(timestamp)] for what [get_starting_timestamp] returned. *)
Definition timestamp_truthy (timestamp : option parsed) : bool :=
  match timestamp with
  | Some p => parsed_truthy p
  | None => false
  end.

(** The first block of [get_url_params] ("Initialise Starting Values"):
    the value bound to [last_run_date]. *)
Definition last_run_date (self : DataverseTableStream)
    (state : option pyval) : M (option pyval) :=
  try_except
    (timestamp ← get_starting_timestamp self state;
     if timestamp_truthy timestamp then
       match timestamp with
       | Some (ParsedDateTime ts _) => mret (Some (PStr (strftime ts)))
       | _ =>
           raise (Exn AttributeError
                    "'Duration' object has no attribute 'strftime'")
       end
     else
       (* Fallback to start_date if no timestamp from state *)
       mret (if PyStr.truthy (start_date self)
             then Some (PStr (start_date self)) else None))
    (let last := state in
     mret (if bool_decide (last = None) && PyStr.truthy (start_date self)
           then Some (PStr (start_date self)) else last)).

End Bookmark.

(** ** Request parameters *)

(** [bool(last_run_date)]. *)
Definition opt_truthy (o : option pyval) : bool :=
  match o with Some v => pyval_truthy v | None => false end.

(** The replication part: [$orderby], and [$filter] when a floor exists. *)
Definition replication_params (self : DataverseTableStream)
    (last : option pyval) : gmap string string :=
  if replication_key_truthy self then
    let params := <["$orderby" := replication_key_str self +:+ " asc"]> ∅ in
    match last with
    | Some v =>
        if pyval_truthy v
        then <["$filter" := replication_key_str self +:+ " ge " +:+ pyval_str v]>
               params
        else params
    | None => params
    end
  else ∅.

(** One iteration of the loop over [custom_query_params.split("&")]. *)
Definition merge_custom_param (params : gmap string string) (param : string)
    : gmap string string :=
  if PyStr.contains "=" param then
    match PyStr.split1 "=" param with
    | Some (key, value) =>
        if bool_decide (key = "$filter") then
          match params !! "$filter" with
          | Some existing =>
              <["$filter" := "(" +:+ existing +:+ ") and (" +:+ value +:+ ")"]>
                params
          | None => <[key := value]> params
          end
        else <[key := value]> params
    | None => params
    end
  else params.

Definition merge_custom_params (self : DataverseTableStream)
    (params : gmap string string) : gmap string string :=
  if PyStr.truthy (custom_query_params self)
  then fold_left merge_custom_param
         (PyStr.split "&" (custom_query_params self)) params
  else params.

(** [dict(pairs)]: later pairs overwrite earlier ones. *)
Definition dict_of_pairs (pairs : list (string * string)) : gmap string string :=
  fold_left (fun d kv => <[kv.1 := kv.2]> d) pairs ∅.

Section Params.
Context {parser : PendulumParse} {decoder : Unquote}.

(** [urllib.parse.parse_qsl(qs)] with its defaults
    ([keep_blank_values=False], [strict_parsing=False]). *)
Definition parse_qsl (qs : string) : list (string * string) :=
  flat_map
    (fun name_value =>
       if negb (PyStr.truthy name_value) then []
       else match PyStr.split1 "=" name_value with
            | None => []
            | Some (n, v) =>
                if PyStr.truthy v
                then [(unquote (PyStr.replace "+" " " n),
                       unquote (PyStr.replace "+" " " v))]
                else []
            end)
    (PyStr.split "&" qs).

(** [get_url_params]. *)
Definition get_url_params (self : DataverseTableStream)
    (state : option pyval) (next_page_token : option ParseResult)
    : M (gmap string string) :=
  last ← last_run_date self state;
  let params := replication_params self last in
  let params := merge_custom_params self params in
  params ← match next_page_token with
           | Some token =>
               log (LogInfo (query token));;
               mret (dict_of_pairs (parse_qsl (query token)))
           | None => mret params
           end;
  log (LogInfoParams params);;
  mret params.

End Params.

(** ** Record extraction *)

(** [d.get(k)] on the items of a [dict]. *)
Fixpoint dict_get {V} (d : list (string * V)) (k : string) : option V :=
  match d with
  | [] => None
  | (k', v) :: d' => if bool_decide (k' = k) then Some v else dict_get d' k
  end.

Section Extraction.
Context {slicer : SliceNonArray}.

(** The library's [find], as far as [records_path] goes: [Fields] matches a
    present member of an object (what becomes of a [null] member is left to
    the next step); [[*]] yields the elements of an array, and of anything
    else what [slice_non_array] says. *)
Fixpoint find (p : jsonpath) (datum : json) : list json :=
  match p with
  | Root => [datum]
  | Fields name =>
      match datum with
      | JObj fields =>
          match dict_get fields name with
          | Some v => [v]
          | None => []
          end
      | _ => []
      end
  | Slice =>
      match datum with
      | JArr items => items
      | _ => slice_non_array datum
      end
  | Child l r => flat_map (find r) (find l datum)
  end.

(** [singer_sdk.helpers.jsonpath.extract_jsonpath]: the values of the
    matches, in order. *)
Definition extract_jsonpath (expression : jsonpath) (input : json) : list json :=
  find expression input.

(** [parse_response]; [response_json] is [response.json()]. *)
Definition parse_response (self : DataverseTableStream) (response_json : json)
    : list json :=
  extract_jsonpath (records_path self) response_json.

End Extraction.

(** ** Record post-processing *)

(** [d[k] = v] on an insertion-ordered [dict]: an existing key keeps its
    place and takes the new value, a new key goes last. *)
Fixpoint dict_set {V} (d : list (string * V)) (k : string) (v : V)
    : list (string * V) :=
  match d with
  | [] => [(k, v)]
  | (k', v') :: d' =>
      if bool_decide (k' = k) then (k, v) :: d'
      else (k', v') :: dict_set d' k v
  end.

Section PostProcess.
Context {sanitizer : SqlAttributeName}.

(** One assignment of the comprehension below. *)
Definition rename_step {V} (acc : list (string * V)) (kv : string * V)
    : list (string * V) :=
  dict_set acc (sql_attribute_name kv.1) kv.2.

(** [{sql_attribute_name(k): v for k, v in row.items()}]. *)
Definition rename_fields {V} (row : list (string * V)) : list (string * V) :=
  fold_left rename_step row [].

(** A field under its new name. *)
Definition renamed {V} (kv : string * V) : string * V :=
  (sql_attribute_name kv.1, kv.2).

(** [post_process]: the record, or [None] to exclude it. *)
Definition post_process (self : DataverseTableStream)
    (row : list (string * json)) : option (list (string * json)) :=
  let row :=
    if tap_sql_attribute_names (config self) then rename_fields row else row in
  Some row.

End PostProcess.

(** ** Reference collaborators

    Executable stand-ins for the collaborators, used to run the stream on
    concrete inputs. *)

Module Reference.

Definition digit (c : ascii) : option Z :=
  let n := Z.of_nat (nat_of_ascii c) in
  if (48 <=? n) && (n <=? 57) then Some (n - 48) else None.

(** Read exactly [w] decimal digits. *)
Fixpoint number (w : nat) (acc : Z) (s : string) : option (Z * string) :=
  match w with
  | O => Some (acc, s)
  | S w' =>
      match s with
      | String c s' =>
          match digit c with
          | Some d => number w' (10 * acc + d) s'
          | None => None
          end
      | EmptyString => None
      end
  end.

Definition expect (c : ascii) (s : string) : option string :=
  match s with
  | String c' s' => if Ascii.eqb c c' then Some s' else None
  | EmptyString => None
  end.

(** Up to [w] further fraction digits, scaled to microseconds. *)
Fixpoint fraction (w : nat) (acc : Z) (s : string) : Z * string :=
  match w with
  | O => (acc, s)
  | S w' =>
      match s with
      | String c s' =>
          match digit c with
          | Some d => fraction w' (10 * acc + d) s'
          | None => (acc * 10 ^ Z.of_nat w, s)
          end
      | EmptyString => (acc * 10 ^ Z.of_nat w, s)
      end
  end.

Definition leap (y : Z) : bool :=
  ((y mod 4 =? 0) && negb (y mod 100 =? 0)) || (y mod 400 =? 0).

Definition days_in_month (y m : Z) : Z :=
  if m =? 2 then (if leap y then 29 else 28)
  else if (m =? 4) || (m =? 6) || (m =? 9) || (m =? 11) then 30
  else 31.

Definition in_range (lo x hi : Z) : bool := (lo <=? x) && (x <=? hi).

(** A zone designator: nothing or [Z] for UTC, or [+HH:MM] / [-HH:MM]; the
    offset in minutes. *)
Definition zone (s : string) : option Z :=
  match s with
  | EmptyString => Some 0
  | String "Z" EmptyString => Some 0
  | String sign s' =>
      if Ascii.eqb sign "+" || Ascii.eqb sign "-" then
        '(h, s') ← number 2 0 s';
        s' ← expect ":" s';
        '(mi, s') ← number 2 0 s';
        if negb (PyStr.truthy s') && in_range 0 h 23 && in_range 0 mi 59
        then Some (if Ascii.eqb sign "-" then - (60 * h + mi) else 60 * h + mi)
        else None
      else None
  end.

(** [HH:MM:SS], an optional fraction of one to six digits, an optional
    zone designator, and nothing after. *)
Definition time_of_day (s : string) : option (Z * Z * Z * Z * Z) :=
  '(h, s) ← number 2 0 s;
  s ← expect ":" s;
  '(mi, s) ← number 2 0 s;
  s ← expect ":" s;
  '(sec, s) ← number 2 0 s;
  '(us, s) ← match s with
             | String "." (String c s') =>
                 match digit c with
                 | Some d => Some (fraction 5 d s')
                 | None => None
                 end
             | _ => Some (0, s)
             end;
  offset ← zone s;
  if in_range 0 h 23 && in_range 0 mi 59 && in_range 0 sec 59
  then Some (h, mi, sec, us, offset) else None.

(** Extended ISO-8601 calendar dates and date-times:
    [YYYY-MM-DD] and [YYYY-MM-DDTHH:MM:SS[.f{1,6}][Z|+HH:MM|-HH:MM]]; a
    text without zone is read as UTC. *)
Definition iso8601 (s : string) : option (DateTime * Z) :=
  '(y, s) ← number 4 0 s;
  s ← expect "-" s;
  '(m, s) ← number 2 0 s;
  s ← expect "-" s;
  '(d, s) ← number 2 0 s;
  if in_range 1 m 12 && in_range 1 d (days_in_month y m) then
    match s with
    | EmptyString => Some (mkDateTime y m d 0 0 0 0, 0)
    | String "T" s' =>
        '(h, mi, sec, us, offset) ← time_of_day s';
        Some (mkDateTime y m d h mi sec us, offset)
    | _ => None
    end
  else None.

(** All the leading digits of [s], at least one. *)
Fixpoint leading_number (s : string) (acc : Z) (seen : bool)
    : option (Z * string) :=
  match s with
  | String c s' =>
      match digit c with
      | Some d => leading_number s' (10 * acc + d) true
      | None => if seen then Some (acc, s) else None
      end
  | EmptyString => if seen then Some (acc, s) else None
  end.

(** Components [<number><designator>] of a duration, as many as there are:
    how many were read, whether one is not zero, and the rest. *)
Fixpoint components (fuel : nat) (designators : string) (s : string)
    (count : nat) (nonzero : bool) : option (nat * bool * string) :=
  match fuel with
  | O => None
  | S fuel' =>
      match leading_number s 0 false with
      | Some (n, String c rest) =>
          if PyStr.contains c designators
          then components fuel' designators rest (S count)
                 (nonzero || negb (n =? 0))
          else None
      | Some (_, EmptyString) => None
      | None => Some (count, nonzero, s)
      end
  end.

(** ISO-8601 durations with whole numbers, [P[nY][nM][nW][nD][T[nH][nM][nS]]]
    with at least one component: whether the duration is not zero. *)
Definition duration (s : string) : option bool :=
  match s with
  | String "P" s1 =>
      '(n1, nz1, s2) ← components (S (String.length s)) "YMWD" s1 O false;
      match s2 with
      | EmptyString => if (0 <? n1)%nat then Some nz1 else None
      | String "T" s3 =>
          '(n2, nz2, s4) ← components (S (String.length s)) "HMS" s3 O false;
          if negb (PyStr.truthy s4) && (0 <? n2)%nat
          then Some (nz1 || nz2) else None
      | _ => None
      end
  | _ => None
  end.

(** The part of [pendulum.parse] that the examples exercise: ISO-8601 dates
    and date-times in the shapes of [iso8601] are read as a [DateTime],
    durations in the shape of [duration] as a [Duration]; other text raises
    [ParserError]; a non-string raises [TypeError]. (pendulum reads further
    notations, such as week dates and intervals, which are left out here.) *)
Definition parse (v : pyval) : exn + parsed :=
  match v with
  | PStr text =>
      match iso8601 text with
      | Some (dt, offset) => inr (ParsedDateTime dt offset)
      | None =>
          match duration text with
          | Some nonzero => inr (ParsedSpan nonzero)
          | None =>
              inl (Exn ParserError ("Unable to parse string [" +:+ text +:+ "]"))
          end
      end
  | PInt _ => inl (Exn TypeError "expected string or bytes-like object")
  end.

(** A stand-in for [[*]] on a value that is not an array: [null] yields
    nothing, an object (an empty one too) or a scalar yields itself. *)
Definition slice_value (v : json) : list json :=
  match v with
  | JNull => []
  | _ => [v]
  end.

Definition hexval (c : ascii) : option Z :=
  let n := Z.of_nat (nat_of_ascii c) in
  if in_range 48 n 57 then Some (n - 48)
  else if in_range 65 n 70 then Some (n - 55)
  else if in_range 97 n 102 then Some (n - 87)
  else None.

(** Percent-decoding: [%XY] with two hexadecimal digits becomes the byte
    [0xXY], any other [%] stays. This is [urllib.parse.unquote] on strings
    read as UTF-8 bytes whose decoded form is valid UTF-8. *)
Fixpoint percent_decode (s : string) : string :=
  match s with
  | EmptyString => EmptyString
  | String c s1 =>
      if Ascii.eqb c "%" then
        match s1 with
        | String a (String b rest) =>
            match hexval a, hexval b with
            | Some x, Some y =>
                String (ascii_of_nat (Z.to_nat (16 * x + y)))
                       (percent_decode rest)
            | _, _ => String c (percent_decode s1)
            end
        | _ => String c (percent_decode s1)
        end
      else String c (percent_decode s1)
  end.

Definition is_digit (c : ascii) : bool :=
  in_range 48 (Z.of_nat (nat_of_ascii c)) 57.

Definition is_letter (c : ascii) : bool :=
  let n := Z.of_nat (nat_of_ascii c) in in_range 65 n 90 || in_range 97 n 122.

Definition sql_char (c : ascii) : ascii :=
  if is_letter c || is_digit c || Ascii.eqb c "_" then c else "_"%char.

Fixpoint map_chars (f : ascii -> ascii) (s : string) : string :=
  match s with
  | EmptyString => EmptyString
  | String c s' => String (f c) (map_chars f s')
  end.

(** Modelled from the spec: [tap_dataverse/utils.py] is not part of the
    sources at hand. The spec asks for a pure, deterministic mapping to a
    SQL-identifier-safe form, "letters/underscore start, then
    letters/digits/underscore": every other character becomes an
    underscore, and a leading digit is shielded by an underscore. *)
Definition sql_attribute_name (s : string) : string :=
  match map_chars sql_char s with
  | String c s' =>
      if is_digit c then String "_" (String c s') else String c s'
  | EmptyString => EmptyString
  end.

#[export] Instance pendulum : PendulumParse := parse.
#[export] Instance jsonpath_ng : SliceNonArray := slice_value.
#[export] Instance urllib : Unquote := percent_decode.
#[export] Instance utils : SqlAttributeName := sql_attribute_name.

End Reference.

(** ** Examples used below *)

Module Examples.

Definition tap : TapConfig :=
  {| tap_start_date := None; tap_replication_key := None;
     tap_sql_attribute_names := true; tap_annotations := false |}.

(** [{start_date: "2024-01-01", replication_key: "modifiedon"}]. *)
Definition accounts_config : StreamConfig :=
  {| sc_name := Some "accounts"; sc_query_params := None;
     sc_start_date := Some "2024-01-01";
     sc_replication_key := Some "modifiedon" |}.

Definition accounts : DataverseTableStream :=
  init tap accounts_config "accounts" true.

(** A stream replicated on an integer row version. *)
Definition versioned : DataverseTableStream :=
  init tap
    {| sc_name := Some "contacts"; sc_query_params := None;
       sc_start_date := None; sc_replication_key := Some "versionnumber" |}
    "contacts" false.

(** A stream whose start date is not a date. *)
Definition misdated : DataverseTableStream :=
  init tap
    {| sc_name := Some "leads"; sc_query_params := None;
       sc_start_date := Some "not-a-date";
       sc_replication_key := Some "modifiedon" |}
    "leads" true.

(** A stream with custom query parameters. *)
Definition annotated : DataverseTableStream :=
  init tap
    {| sc_name := Some "annotations";
       sc_query_params :=
         Some "$select=subject,notetext&$filter=objectidtypecode eq 'contact'";
       sc_start_date := Some "2024-01-01";
       sc_replication_key := Some "modifiedon" |}
    "annotations" true.

Definition token : ParseResult :=
  {| scheme := "https"; netloc := "org.crm.dynamics.com";
     url_path := "/api/data/v9.2/accounts"; url_params := "";
     query := "$orderby=modifiedon+asc&$skiptoken=%3Ccookie%20pagenumber%3D2%2F%3E";
     fragment := "" |}.

(** [{"value": [{"name": "a"}, {"name": "b"}]}]. *)
Definition page : json :=
  JObj [("@odata.context", JStr "accounts");
        ("value", JArr [JObj [("name", JStr "a")]; JObj [("name", JStr "b")]])].

(** A record whose field names need sanitizing, two of them to the same
    name. *)
Definition raw_row : list (string * json) :=
  [("@odata.etag", JStr "W/1"); ("full name", JStr "Ada");
   ("2fa", JBool true); ("full_name", JStr "Ada L.")].

(** A stream without replication key, with custom parameters only. *)
Definition lookup_table : DataverseTableStream :=
  init {| tap_start_date := Some "2023-06-01"; tap_replication_key := Some "modifiedon";
          tap_sql_attribute_names := false; tap_annotations := true |}
    {| sc_name := Some "countries";
       sc_query_params := Some "$select=name,code&novalue&$filter=statecode eq 0&$top=50";
       sc_start_date := None; sc_replication_key := Some "" |}
    "countries" false.

(** A continuation token whose query names [$top] twice. *)
Definition repeated_token : ParseResult :=
  {| scheme := "https"; netloc := "org.crm.dynamics.com";
     url_path := "/api/data/v9.2/accounts"; url_params := "";
     query := "$top=5&$skiptoken=p2&$top=10"; fragment := "" |}.

(** Custom entries, one with an [=] inside its value. *)
Definition custom_pairs : list (string * string) :=
  [("$select", "name,code"); ("$filter", "name eq 'x=y'"); ("$top", "50")].

(** A record whose names are already SQL-safe. *)
Definition clean_row : list (string * json) :=
  [("accountid", JStr "a1"); ("name", JStr "Ada"); ("revenue", JInt 10)].

End Examples.

(** ** Spec-side vocabulary for the custom parameters *)

(** The [key=value] entries of a custom query string, in order: the pieces
    between [&] that contain an [=], cut at the first one. *)
Definition custom_entries (s : string) : list (string * string) :=
  omap (PyStr.split1 "=") (PyStr.split "&" s).

(** The value a sequence of assignments leaves under [key], starting from
    [base]: that of the last entry named [key], if any. *)
Definition overridden (key : string) (entries : list (string * string))
    (base : option string) : option string :=
  fold_left (fun acc kv => if bool_decide (kv.1 = key) then Some kv.2 else acc)
            entries base.

(** The values of the entries named [key], in order. *)
Definition values_of (key : string) (entries : list (string * string))
    : list string :=
  (fun kv => kv.2) <$> filter (fun kv => kv.1 = key) entries.

(** [f"({existing}) and ({value})"]. *)
Definition and_filter (existing value : string) : string :=
  "(" +:+ existing +:+ ") and (" +:+ value +:+ ")".


(** [sep.join(pieces)] for a one-character [sep]. *)
Fixpoint join (sep : ascii) (pieces : list string) : string :=
  match pieces with
  | [] => EmptyString
  | [piece] => piece
  | piece :: rest => piece +:+ String sep (join sep rest)
  end.

(** A custom query string written from its entries:
    [k1=v1&k2=v2&...]. *)
Definition render_entries (entries : list (string * string)) : string :=
  join "&" ((fun kv => kv.1 +:+ "=" +:+ kv.2) <$> entries).

(** The value under [key] once [pairs] have been assigned in order to an
    empty [dict]: that of the last pair named [key]. *)
Definition last_assigned {V} (key : string) (pairs : list (string * V))
    : option V :=
  fold_left (fun acc kv => if bool_decide (kv.1 = key) then Some kv.2 else acc)
            pairs None.

(** The value of the last field of [row] whose sanitized name is [key]. *)
Definition last_renamed {sanitizer : SqlAttributeName} {V} (key : string)
    (row : list (string * V)) : option V :=
  last_assigned key (renamed <$> row).

(** * Properties *)

(** ** Strings *)



Lemma split1_contains (sep : ascii) (s : string) :
  PyStr.contains sep s = false -> PyStr.split1 sep s = None.
Proof.
  induction s as [|c s IH]; simpl; [done|].
  destruct (Ascii.eqb c sep); [done|].
  intros Hc. by rewrite IH.
Qed.

(** ** Bookmark resolution *)

Section BookmarkFacts.
Context {parser : PendulumParse}.

Ltac run := unfold last_run_date, get_starting_timestamp, try_except,
  try_except_Exception, raise, log, lift, mbind, M_bind, mret, M_ret; simpl.

Lemma get_starting_timestamp_not_timestamp self v :
  is_timestamp_replication_key self = false ->
  get_starting_timestamp self (Some v) =
    ([], inl (Exn ValueError
                ("The replication key " +:+ replication_key_str self +:+
                 " is not of timestamp type"))).
Proof. intros Hts. run. by rewrite Hts. Qed.

Lemma get_starting_timestamp_stored self v :
  is_timestamp_replication_key self = true ->
  get_starting_timestamp self (Some v) =
    ([], match pendulum_parse v with
         | inl e => inl e
         | inr p => inr (Some p)
         end).
Proof. intros Hts. run. rewrite Hts. simpl. by destruct (pendulum_parse v). Qed.

Lemma get_starting_timestamp_bad_start_date self e :
  PyStr.truthy (start_date self) = true ->
  pendulum_parse (PStr (start_date self)) = inl e ->
  get_starting_timestamp self None =
    ([LogWarning ("Invalid start_date format: " +:+ start_date self)],
     inr None).
Proof. intros Hsd He. run. rewrite Hsd. simpl. by rewrite He. Qed.

Lemma last_run_date_not_timestamp self v :
  is_timestamp_replication_key self = false ->
  last_run_date self (Some v) = ([], inr (Some v)).
Proof. intros Hts. run. by rewrite Hts. Qed.

Lemma last_run_date_stored_parsed self v dt tz :
  is_timestamp_replication_key self = true ->
  pendulum_parse v = inr (ParsedDateTime dt tz) ->
  last_run_date self (Some v) = ([], inr (Some (PStr (strftime dt)))).
Proof. intros Hts Hp. run. rewrite Hts. simpl. by rewrite Hp. Qed.

(** A stored value read as a non-zero duration: [strftime] is missing, the
    [AttributeError] is handled, the raw stored value is the floor. *)
Lemma last_run_date_stored_span self v :
  is_timestamp_replication_key self = true ->
  pendulum_parse v = inr (ParsedSpan true) ->
  last_run_date self (Some v) = ([], inr (Some v)).
Proof. intros Hts Hp. run. rewrite Hts. simpl. by rewrite Hp. Qed.

(** A stored value read as a zero duration is falsy: the start date, if
    any, is the floor. *)
Lemma last_run_date_stored_falsy self v :
  is_timestamp_replication_key self = true ->
  pendulum_parse v = inr (ParsedSpan false) ->
  last_run_date self (Some v) =
    ([], inr (if PyStr.truthy (start_date self)
              then Some (PStr (start_date self)) else None)).
Proof. intros Hts Hp. run. rewrite Hts. simpl. by rewrite Hp. Qed.

Lemma last_run_date_stored_caught self v e :
  is_timestamp_replication_key self = true ->
  pendulum_parse v = inl e ->
  is_ValueError_or_AttributeError e = true ->
  last_run_date self (Some v) = ([], inr (Some v)).
Proof. intros Hts Hp He. run. rewrite Hts. simpl. rewrite Hp. by rewrite He. Qed.

Lemma last_run_date_stored_uncaught self v e :
  is_timestamp_replication_key self = true ->
  pendulum_parse v = inl e ->
  is_ValueError_or_AttributeError e = false ->
  last_run_date self (Some v) = ([], inl e).
Proof. intros Hts Hp He. run. rewrite Hts. simpl. rewrite Hp. by rewrite He. Qed.

Lemma last_run_date_start_date_parsed self dt tz :
  PyStr.truthy (start_date self) = true ->
  pendulum_parse (PStr (start_date self)) = inr (ParsedDateTime dt tz) ->
  last_run_date self None = ([], inr (Some (PStr (strftime dt)))).
Proof. intros Hsd Hp. run. rewrite Hsd. simpl. by rewrite Hp. Qed.

(** A start date read as a duration is sent as it is written, whether the
    duration is zero or not. *)
Lemma last_run_date_start_date_span self nonzero :
  PyStr.truthy (start_date self) = true ->
  pendulum_parse (PStr (start_date self)) = inr (ParsedSpan nonzero) ->
  last_run_date self None = ([], inr (Some (PStr (start_date self)))).
Proof.
  intros Hsd Hp. run. rewrite Hsd. simpl. rewrite Hp.
  destruct nonzero; simpl; by rewrite ?Hsd.
Qed.

Lemma last_run_date_bad_start_date self e :
  PyStr.truthy (start_date self) = true ->
  pendulum_parse (PStr (start_date self)) = inl e ->
  last_run_date self None =
    ([LogWarning ("Invalid start_date format: " +:+ start_date self)],
     inr (Some (PStr (start_date self)))).
Proof. intros Hsd Hp. run. rewrite Hsd. simpl. by rewrite Hp. Qed.

Lemma last_run_date_nothing self :
  PyStr.truthy (start_date self) = false ->
  last_run_date self None = ([], inr None).
Proof. intros Hsd. run. by rewrite !Hsd. Qed.


(** The only failure of the first block: the parser raising, on the stored
    value, an error that the handler does not cover. *)
Lemma last_run_date_raises self state w e :
  last_run_date self state = (w, inl e) ->
  exists v, state = Some v /\ is_timestamp_replication_key self = true /\
            pendulum_parse v = inl e /\
            is_ValueError_or_AttributeError e = false.
Proof.
  destruct state as [v|].
  - destruct (is_timestamp_replication_key self) eqn:Hts.
    + destruct (pendulum_parse v) as [e'|[dt tz|[]]] eqn:Hp.
      * destruct (is_ValueError_or_AttributeError e') eqn:He.
        -- by rewrite (last_run_date_stored_caught _ _ _ Hts Hp He).
        -- rewrite (last_run_date_stored_uncaught _ _ _ Hts Hp He).
           intros [= <- <-]. eauto.
      * by rewrite (last_run_date_stored_parsed _ _ _ _ Hts Hp).
      * by rewrite (last_run_date_stored_span _ _ Hts Hp).
      * rewrite (last_run_date_stored_falsy _ _ Hts Hp). by intros [= <-].
    + by rewrite last_run_date_not_timestamp.
  - destruct (PyStr.truthy (start_date self)) eqn:Hsd.
    + destruct (pendulum_parse (PStr (start_date self)))
        as [e'|[dt tz|nonzero]] eqn:Hp.
      * by rewrite (last_run_date_bad_start_date _ _ Hsd Hp).
      * by rewrite (last_run_date_start_date_parsed _ _ _ Hsd Hp).
      * by rewrite (last_run_date_start_date_span _ _ Hsd Hp).
    + by rewrite last_run_date_nothing.
Qed.

End BookmarkFacts.

(** ** Custom parameters *)

Lemma merge_custom_param_split1 params param :
  merge_custom_param params param =
    match PyStr.split1 "=" param with
    | Some (key, value) =>
        if bool_decide (key = "$filter") then
          match params !! "$filter" with
          | Some existing => <["$filter" := and_filter existing value]> params
          | None => <[key := value]> params
          end
        else <[key := value]> params
    | None => params
    end.
Proof.
  unfold merge_custom_param.
  destruct (PyStr.contains "=" param) eqn:Hc; [done|].
  by rewrite (split1_contains _ _ Hc).
Qed.

(** A key other than [$filter] ends up with its last custom value, or keeps
    the one it had. *)
Lemma fold_merge_other key (l : list string) : forall params : gmap string string,
  key ≠ "$filter" ->
  fold_left merge_custom_param l params !! key =
    overridden key (omap (PyStr.split1 "=") l) (params !! key).
Proof.
  induction l as [|param l IH]; intros params Hkey; [done|].
  cbn [fold_left]. rewrite IH by done. clear IH.
  rewrite merge_custom_param_split1. cbn [omap list_omap].
  destruct (PyStr.split1 "=" param) as [[k v]|]; [|done].
  unfold overridden. cbn [fold_left fst snd]. f_equal.
  case_bool_decide as Hk; subst.
  - rewrite bool_decide_false by done.
    destruct (params !! "$filter"); by rewrite lookup_insert_ne.
  - case_bool_decide; subst.
    + by rewrite lookup_insert_eq.
    + by rewrite lookup_insert_ne.
Qed.

(** An existing [$filter] is and-ed, in order, with every custom one. *)
Lemma fold_merge_filter (l : list string) :
  forall (params : gmap string string) existing,
  params !! "$filter" = Some existing ->
  fold_left merge_custom_param l params !! "$filter" =
    Some (fold_left and_filter
            (values_of "$filter" (omap (PyStr.split1 "=") l)) existing).
Proof.
  induction l as [|param l IH]; intros params existing Hf; [done|].
  cbn [fold_left]. rewrite merge_custom_param_split1. cbn [omap list_omap].
  destruct (PyStr.split1 "=" param) as [[k v]|]; [|by apply IH].
  unfold values_of. rewrite filter_cons. cbn [fst snd].
  case_bool_decide as Hk; subst.
  - rewrite Hf, decide_True by done. cbn [fmap list_fmap fold_left snd].
    apply IH. by rewrite lookup_insert_eq.
  - rewrite decide_False by done. apply IH. by rewrite lookup_insert_ne.
Qed.

Lemma replication_params_filter self v :
  replication_key_truthy self = true ->
  pyval_truthy v = true ->
  replication_params self (Some v) !! "$filter" =
    Some (replication_key_str self +:+ " ge " +:+ pyval_str v).
Proof.
  intros Hk Hv. unfold replication_params. rewrite Hk, Hv.
  by rewrite lookup_insert_eq.
Qed.

(** ** Request parameters *)

Section ParamsFacts.
Context {parser : PendulumParse} {decoder : Unquote}.

Ltac run := unfold get_url_params, log, mbind, M_bind, mret, M_ret; simpl.

Lemma get_url_params_first_page self state w last :
  last_run_date self state = (w, inr last) ->
  get_url_params self state None =
    let params := merge_custom_params self (replication_params self last) in
    ((w ++ [LogInfoParams params])%list, inr params).
Proof. intros Hl. run. by rewrite Hl. Qed.

Lemma get_url_params_next_page self state w last token :
  last_run_date self state = (w, inr last) ->
  get_url_params self state (Some token) =
    let params := dict_of_pairs (parse_qsl (query token)) in
    ((w ++ [LogInfo (query token); LogInfoParams params])%list, inr params).
Proof. intros Hl. run. by rewrite Hl. Qed.

Lemma get_url_params_raises self state tok w e :
  last_run_date self state = (w, inl e) ->
  get_url_params self state tok = (w, inl e).
Proof. intros Hl. run. by rewrite Hl. Qed.

(** The first request when replication computed a [$filter]: it is
    returned, with the custom [$filter] values and-ed after the computed
    one. *)
Lemma custom_filter_is_first self state w last existing :
  last_run_date self state = (w, inr last) ->
  replication_params self last !! "$filter" = Some existing ->
  outcome (get_url_params self state None) =
    inr (merge_custom_params self (replication_params self last)) /\
  merge_custom_params self (replication_params self last) !! "$filter" =
    Some (fold_left and_filter
            (values_of "$filter" (custom_entries (custom_query_params self)))
            existing).
Proof.
  intros Hl Hf. split.
  - by rewrite (get_url_params_first_page _ _ _ _ Hl).
  - unfold merge_custom_params, custom_entries.
    destruct (custom_query_params self) as [|c s] eqn:Hq; [done|].
    cbn [PyStr.truthy]. by apply fold_merge_filter.
Qed.

End ParamsFacts.

Lemma dict_of_pairs_elem (pairs : list (string * string)) k v :
  dict_of_pairs pairs !! k = Some v -> (k, v) ∈ pairs.
Proof.
  unfold dict_of_pairs.
  assert (Hgen : forall d : gmap string string,
    fold_left (fun d kv => <[kv.1 := kv.2]> d) pairs d !! k = Some v ->
    (k, v) ∈ pairs \/ d !! k = Some v).
  { induction pairs as [|[k' v'] pairs IH]; intros d Hd; [by right|].
    cbn [fold_left] in Hd. apply IH in Hd as [Hin | Hd].
    - left. by right.
    - cbn [fst snd] in Hd. destruct (decide (k' = k)) as [->|Hne].
      + rewrite lookup_insert_eq in Hd. injection Hd as ->. left. by left.
      + rewrite lookup_insert_ne in Hd by done. by right. }
  intros Hd. by destruct (Hgen ∅ Hd) as [?|?].
Qed.

(** ** The claims about bookmark resolution and request parameters *)

Section Claims.
Context {parser : PendulumParse} {decoder : Unquote}.

(** C1 (as the code has it). For a stream whose replication key is not
    timestamp-typed and that has a stored bookmark value,
    [get_starting_timestamp] raises a [ValueError]; [get_url_params]
    handles it and goes on: the first request's parameters are built from
    the raw stored value, which becomes the [$filter] bound when a
    replication key is configured and the value is truthy. *)
Theorem non_timestamp_key_error_is_handled self v :
  is_timestamp_replication_key self = false ->
  outcome (get_starting_timestamp self (Some v)) =
    inl (Exn ValueError
           ("The replication key " +:+ replication_key_str self +:+
            " is not of timestamp type")) /\
  outcome (get_url_params self (Some v) None) =
    inr (merge_custom_params self (replication_params self (Some v))) /\
  (replication_key_truthy self = true -> pyval_truthy v = true ->
   replication_params self (Some v) !! "$filter" =
     Some (replication_key_str self +:+ " ge " +:+ pyval_str v)).
Proof.
  intros Hts. split; [|split].
  - by rewrite get_starting_timestamp_not_timestamp.
  - by rewrite (get_url_params_first_page _ _ _ _
                  (last_run_date_not_timestamp _ v Hts)).
  - apply replication_params_filter.
Qed.

(** C2 (as the code has it). For a stream with a timestamp-typed
    replication key whose stored bookmark value the parser rejects,
    [get_starting_timestamp] raises the parser's error. [get_url_params]
    handles it when it is a [ValueError] (pendulum's [ParserError] is one)
    or an [AttributeError], and builds the first request from the raw
    stored value; an error of any other class propagates to the caller. *)
Theorem unparseable_bookmark_is_handled self v e :
  is_timestamp_replication_key self = true ->
  pendulum_parse v = inl e ->
  outcome (get_starting_timestamp self (Some v)) = inl e /\
  (is_ValueError_or_AttributeError e = true ->
   outcome (get_url_params self (Some v) None) =
     inr (merge_custom_params self (replication_params self (Some v)))) /\
  (is_ValueError_or_AttributeError e = false ->
   forall tok, outcome (get_url_params self (Some v) tok) = inl e).
Proof.
  intros Hts Hp. split; [|split].
  - by rewrite (get_starting_timestamp_stored _ _ Hts), Hp.
  - intros He.
    by rewrite (get_url_params_first_page _ _ _ _
                  (last_run_date_stored_caught _ _ _ Hts Hp He)).
  - intros He tok.
    by rewrite (get_url_params_raises _ _ tok _ _
                  (last_run_date_stored_uncaught _ _ _ Hts Hp He)).
Qed.

(** C3 (as the code has it). For a stream with no stored bookmark and a
    start date that fails to parse, the failure is not fatal: a warning is
    logged, [get_starting_timestamp] returns no timestamp, and the first
    request is built with the raw start-date string as the floor, which is
    the [$filter] bound when a replication key is configured. *)
Theorem malformed_start_date_is_the_floor self e :
  PyStr.truthy (start_date self) = true ->
  pendulum_parse (PStr (start_date self)) = inl e ->
  get_starting_timestamp self None =
    ([LogWarning ("Invalid start_date format: " +:+ start_date self)],
     inr None) /\
  (let params :=
     merge_custom_params self
       (replication_params self (Some (PStr (start_date self)))) in
   get_url_params self None None =
     ([LogWarning ("Invalid start_date format: " +:+ start_date self);
       LogInfoParams params], inr params)) /\
  (replication_key_truthy self = true ->
   replication_params self (Some (PStr (start_date self))) !! "$filter" =
     Some (replication_key_str self +:+ " ge " +:+ start_date self)).
Proof.
  intros Hsd Hp. split; [|split].
  - by apply get_starting_timestamp_bad_start_date with e.
  - by rewrite (get_url_params_first_page _ _ _ _
                  (last_run_date_bad_start_date _ _ Hsd Hp)).
  - intros Hk. by apply (replication_params_filter self (PStr _)).
Qed.

(** C4. With a continuation token, whatever [get_url_params] returns is
    exactly the dictionary of the pairs that [parse_qsl] reads from the
    token's query component: every entry of the result is one of those
    pairs, so no ordering clause, filter clause or custom parameter is
    present unless the token carries it. The call returns whenever the
    parser raises no error outside [ValueError] and [AttributeError] on
    the stored value. *)
Theorem token_params_are_exactly_the_token_query self state token :
  (forall params,
     outcome (get_url_params self state (Some token)) = inr params ->
     params = dict_of_pairs (parse_qsl (query token)) /\
     forall k v, params !! k = Some v -> (k, v) ∈ parse_qsl (query token)) /\
  ((forall v e, state = Some v -> pendulum_parse v = inl e ->
                is_ValueError_or_AttributeError e = true) ->
   outcome (get_url_params self state (Some token)) =
     inr (dict_of_pairs (parse_qsl (query token)))).
Proof.
  destruct (last_run_date self state) as [w [e|last]] eqn:Hl.
  - rewrite (get_url_params_raises _ _ _ _ _ Hl). split; [done|].
    intros Hcaught.
    destruct (last_run_date_raises _ _ _ _ Hl) as (v & -> & _ & Hp & He).
    by rewrite (Hcaught v e eq_refl Hp) in He.
  - rewrite (get_url_params_next_page _ _ _ _ _ Hl). cbn. split; [|done].
    intros params [= <-]. split; [done|]. apply dict_of_pairs_elem.
Qed.

(** C5. A stream configured with start date "2024-01-01" and replication
    key "modifiedon", with no custom parameters, no stored state and no
    continuation token: once the start date parses as midnight of
    2024-01-01, the first request's parameters are exactly [$orderby] =
    "modifiedon asc" and [$filter] =
    "modifiedon ge 2024-01-01T00:00:00.000000Z". *)
Theorem first_request_from_start_date tap sc entity_set_name key_is_timestamp
    utcoffset :
  sc_start_date sc = Some "2024-01-01" ->
  sc_replication_key sc = Some "modifiedon" ->
  sc_query_params sc = None ->
  pendulum_parse (PStr "2024-01-01") =
    inr (ParsedDateTime (mkDateTime 2024 1 1 0 0 0 0) utcoffset) ->
  outcome (get_url_params (init tap sc entity_set_name key_is_timestamp)
             None None) =
    inr (<["$filter" := "modifiedon ge 2024-01-01T00:00:00.000000Z"]>
           (<["$orderby" := "modifiedon asc"]> ∅)).
Proof.
  intros Hsd Hk Hq Hp.
  set (self := init tap sc entity_set_name key_is_timestamp).
  assert (Hstart : start_date self = "2024-01-01")
    by (unfold self, init; cbn; by rewrite Hsd).
  assert (Hkey : replication_key self = Some "modifiedon")
    by (unfold self, init; cbn; by rewrite Hk).
  assert (Hcustom : custom_query_params self = "")
    by (unfold self, init; cbn; by rewrite Hq).
  rewrite (get_url_params_first_page self None []
             (Some (PStr (strftime (mkDateTime 2024 1 1 0 0 0 0))))).
  - unfold merge_custom_params, replication_params, replication_key_truthy,
      replication_key_str. rewrite Hcustom, Hkey. reflexivity.
  - apply last_run_date_start_date_parsed with utcoffset; rewrite Hstart; done.
Qed.

(** C6. When a replication filter was computed and the custom
    query-parameter string carries [$filter] entries, the resulting
    [$filter] is the existing expression and-ed with each custom one, both
    sides in parentheses, existing first; with a single custom [$filter]
    that is "(existing) and (custom)". Every other custom key takes its
    last custom value, overwriting or adding to the parameter set. *)
Theorem custom_filter_is_anded self state w last existing params :
  last_run_date self state = (w, inr last) ->
  replication_params self last !! "$filter" = Some existing ->
  outcome (get_url_params self state None) = inr params ->
  let entries := custom_entries (custom_query_params self) in
  params !! "$filter" =
    Some (fold_left and_filter (values_of "$filter" entries) existing) /\
  (forall value, values_of "$filter" entries = [value] ->
     params !! "$filter" =
       Some ("(" +:+ existing +:+ ") and (" +:+ value +:+ ")")) /\
  (forall key, key ≠ "$filter" ->
     params !! key =
       overridden key entries (replication_params self last !! key)).
Proof.
  intros Hl Hf Hout entries.
  rewrite (get_url_params_first_page _ _ _ _ Hl) in Hout.
  cbn in Hout. injection Hout as <-.
  assert (Hfilter :
    merge_custom_params self (replication_params self last) !! "$filter" =
      Some (fold_left and_filter (values_of "$filter" entries) existing)).
  { unfold merge_custom_params, entries, custom_entries.
    destruct (custom_query_params self) as [|c s] eqn:Hq; [done|].
    cbn [PyStr.truthy]. by apply fold_merge_filter. }
  split; [done|]. split.
  - intros value Hv. by rewrite Hfilter, Hv.
  - intros key Hkey. unfold merge_custom_params, entries, custom_entries.
    destruct (custom_query_params self) as [|c s] eqn:Hq; [done|].
    cbn [PyStr.truthy]. by apply fold_merge_other.
Qed.


End Claims.

(** ** Record extraction *)

(** C8. The records of a response are the elements of the array under its
    top-level "value" member, in order; a payload without that member, with
    an empty array there, or that is not an object at all, yields no record.
    [parse_response] is a total function: none of these cases raises. *)
Theorem records_are_the_value_elements {slicer : SliceNonArray}
    tap sc entity_set_name key_is_timestamp :
  let self := init tap sc entity_set_name key_is_timestamp in
  (forall fields items,
     dict_get fields "value" = Some (JArr items) ->
     parse_response self (JObj fields) = items) /\
  (forall fields,
     dict_get fields "value" = None -> parse_response self (JObj fields) = []) /\
  (forall fields,
     dict_get fields "value" = Some (JArr []) ->
     parse_response self (JObj fields) = []) /\
  (forall payload,
     (forall fields, payload ≠ JObj fields) -> parse_response self payload = []).
Proof.
  intros self.
  assert (Harr : forall fields items,
    dict_get fields "value" = Some (JArr items) ->
    parse_response self (JObj fields) = items).
  { intros fields items Hv.
    unfold parse_response, extract_jsonpath. cbn. rewrite Hv. cbn.
    by rewrite app_nil_r. }
  split; [done|]. split; [|split].
  - intros fields Hv. unfold parse_response, extract_jsonpath. cbn. by rewrite Hv.
  - intros fields Hv. by apply Harr.
  - intros payload Hno. unfold parse_response, extract_jsonpath. cbn.
    destruct payload; try done. by destruct (Hno fields).
Qed.

(** ** Insertion-ordered dictionaries *)

Local Open Scope list_scope.

Section Dict.
Context {V : Type}.
Implicit Types (d : list (string * V)) (k : string) (v : V).

Lemma dict_set_keys d k v :
  (dict_set d k v).*1 = if decide (k ∈ d.*1) then d.*1 else d.*1 ++ [k].
Proof.
  induction d as [|[k' v'] d IH]; cbn.
  - rewrite decide_False; [done | apply not_elem_of_nil].
  - case_bool_decide as Hk; subst; cbn.
    + rewrite decide_True; [done | by left].
    + rewrite IH. destruct (decide (k ∈ d.*1)) as [Hin|Hin].
      * rewrite decide_True; [done | by right].
      * rewrite decide_False; [done|].
        intros [->|?]%elem_of_cons; done.
Qed.

Lemma dict_set_fresh d k v : k ∉ d.*1 -> dict_set d k v = d ++ [(k, v)].
Proof.
  induction d as [|[k' v'] d IH]; cbn; [done|].
  intros Hk. apply not_elem_of_cons in Hk as [Hne Hk].
  rewrite bool_decide_false by done. by rewrite IH.
Qed.

Lemma dict_set_elem d k v (kv : string * V) :
  kv ∈ dict_set d k v -> kv = (k, v) \/ kv ∈ d.
Proof.
  induction d as [|[k' v'] d IH]; cbn.
  - intros ->%list_elem_of_singleton. by left.
  - case_bool_decide; subst.
    + intros [->|?]%elem_of_cons; [by left | right; by right].
    + intros [->|Hin]%elem_of_cons; [right; by left|].
      destruct (IH Hin); [by left | right; by right].
Qed.

Lemma dict_set_NoDup d k v : NoDup d.*1 -> NoDup (dict_set d k v).*1.
Proof.
  intros Hd. rewrite dict_set_keys. case_decide; [done|].
  apply NoDup_app. split; [done|]. split; [|apply NoDup_singleton].
  intros k' Hk' Hin%list_elem_of_singleton. by subst.
Qed.

End Dict.

(** ** Record post-processing *)

Section PostProcessFacts.
Context {sanitizer : SqlAttributeName} {V : Type}.
Implicit Types (row acc : list (string * V)).

(** Every field of the output is a field of the input under its new name,
    with the value it had. *)
Lemma rename_fold_elem row : forall acc kv,
  kv ∈ fold_left rename_step row acc ->
  kv ∈ acc \/ exists k, (k, kv.2) ∈ row /\ kv.1 = sql_attribute_name k.
Proof.
  induction row as [|[k v] row IH]; intros acc kv Hin; [by left|].
  cbn [fold_left] in Hin. apply IH in Hin as [Hin|(k0 & Hin & Hk)].
  - apply dict_set_elem in Hin as [->|Hin]; [|by left].
    right. exists k. split; [by left | done].
  - right. exists k0. split; [by right | done].
Qed.

Lemma rename_fold_keys_mono row : forall acc k,
  k ∈ acc.*1 -> k ∈ (fold_left rename_step row acc).*1.
Proof.
  induction row as [|kv row IH]; intros acc k Hk; [done|].
  cbn [fold_left]. apply IH. unfold rename_step. rewrite dict_set_keys.
  case_decide; [done|]. apply elem_of_app. by left.
Qed.

(** The new name of every input field is a field of the output. *)
Lemma rename_fold_keys row : forall acc kv,
  kv ∈ row -> sql_attribute_name kv.1 ∈ (fold_left rename_step row acc).*1.
Proof.
  induction row as [|kv' row IH]; intros acc kv Hin.
  - by apply elem_of_nil in Hin.
  - cbn [fold_left]. apply elem_of_cons in Hin as [->|Hin]; [|by apply IH].
    apply rename_fold_keys_mono. unfold rename_step. rewrite dict_set_keys.
    case_decide; [done|]. apply elem_of_app. right. by left.
Qed.

(** Without name collisions, renaming is a map over the fields. *)
Lemma rename_fold_fresh row : forall acc,
  NoDup (acc.*1 ++ (sql_attribute_name <$> row.*1)) ->
  fold_left rename_step row acc = acc ++ (renamed <$> row).
Proof.
  induction row as [|[k v] row IH]; intros acc Hnd.
  - by rewrite app_nil_r.
  - cbn [fold_left fmap list_fmap]. cbn in Hnd.
    unfold rename_step at 2. cbn [fst snd].
    rewrite dict_set_fresh.
    + rewrite IH.
      * by rewrite <- app_assoc.
      * rewrite fmap_app, <- app_assoc. done.
    + apply NoDup_app in Hnd as (_ & Hdisj & _).
      intros Hin. apply (Hdisj _ Hin). by left.
Qed.

Lemma rename_fold_NoDup row : forall acc,
  NoDup acc.*1 -> NoDup (fold_left rename_step row acc).*1.
Proof.
  induction row as [|kv row IH]; intros acc Hnd; [done|].
  cbn [fold_left]. apply IH. by apply dict_set_NoDup.
Qed.

Lemma rename_fields_fold row : rename_fields row = fold_left rename_step row [].
Proof. reflexivity. Qed.

(** Renaming twice is renaming once, for an idempotent sanitizer. *)
Lemma rename_fields_idempotent row :
  (forall k, sql_attribute_name (sql_attribute_name k) = sql_attribute_name k) ->
  rename_fields (rename_fields row) = rename_fields row.
Proof.
  intros Hidem.
  set (out := rename_fields row).
  assert (Hfix : forall kv, kv ∈ out -> renamed kv = kv).
  { intros [k' v] Hin. unfold out in Hin. rewrite rename_fields_fold in Hin.
    apply rename_fold_elem in Hin as [Hin|(k & _ & Hk)].
    - by apply elem_of_nil in Hin.
    - cbn in Hk. unfold renamed. cbn. by rewrite Hk, Hidem. }
  assert (Hmap : renamed <$> out = out).
  { clear -Hfix. induction out as [|kv out IH]; [done|]. cbn.
    rewrite Hfix by (by left). f_equal. apply IH.
    intros kv' Hin. apply Hfix. by right. }
  assert (Hkeys : sql_attribute_name <$> out.*1 = out.*1).
  { rewrite <- Hmap at 2. rewrite <- !list_fmap_compose.
    by apply list_fmap_ext. }
  rewrite (rename_fields_fold out), rename_fold_fresh; [done|].
  cbn [fmap list_fmap app]. rewrite Hkeys.
  unfold out. rewrite rename_fields_fold. by apply rename_fold_NoDup, NoDup_nil.
Qed.

End PostProcessFacts.

Lemma sql_char_idempotent (c : ascii) :
  Reference.sql_char (Reference.sql_char c) = Reference.sql_char c.
Proof. destruct c as [[] [] [] [] [] [] [] []]; reflexivity. Qed.

Lemma map_sql_char_idempotent (s : string) :
  Reference.map_chars Reference.sql_char
    (Reference.map_chars Reference.sql_char s) =
  Reference.map_chars Reference.sql_char s.
Proof.
  induction s as [|c s IH]; [done|]. cbn.
  by rewrite sql_char_idempotent, IH.
Qed.

(** The sanitizer modelled from the spec is idempotent. *)
Lemma reference_sql_attribute_name_idempotent (s : string) :
  Reference.sql_attribute_name (Reference.sql_attribute_name s) =
  Reference.sql_attribute_name s.
Proof.
  unfold Reference.sql_attribute_name.
  pose proof (map_sql_char_idempotent s) as Hidem.
  destruct (Reference.map_chars Reference.sql_char s) as [|c t]; [done|].
  destruct (Reference.is_digit c) eqn:Hd.
  - change (Reference.map_chars Reference.sql_char (String "_" (String c t)))
      with (String "_" (Reference.map_chars Reference.sql_char (String c t))).
    by rewrite Hidem.
  - by rewrite Hidem, Hd.
Qed.

(** [post_process] twice is [post_process] once, for any idempotent
    sanitizer. *)
Lemma post_process_idempotent_for {sanitizer : SqlAttributeName} self row :
  (forall k, sql_attribute_name (sql_attribute_name k) = sql_attribute_name k) ->
  post_process self row ≫= post_process self = post_process self row.
Proof.
  intros Hidem. unfold post_process. cbn.
  destruct (tap_sql_attribute_names (config self)); [|done].
  by rewrite rename_fields_idempotent.
Qed.

(** C9. With the sanitizer modelled from the spec, record post-processing is
    idempotent: for every record and every configuration, applying
    [post_process] to its own output gives that output again. *)
Theorem post_process_idempotent self row :
  post_process (sanitizer := Reference.utils) self row
    ≫= post_process (sanitizer := Reference.utils) self =
  post_process (sanitizer := Reference.utils) self row.
Proof.
  apply post_process_idempotent_for, reference_sql_attribute_name_idempotent.
Qed.

(** C10. For every record and every configuration [post_process] returns a
    record, never [None]. With sanitization disabled it is the input record.
    With sanitization enabled every output field is an input field under its
    sanitized name with the value it had, the sanitized name of every input
    field is an output field, and when no two names collide the output is
    the input with each name replaced by its sanitized form. *)
Theorem post_process_keeps_every_record {sanitizer : SqlAttributeName} self row :
  exists out,
    post_process self row = Some out /\
    (tap_sql_attribute_names (config self) = false -> out = row) /\
    (tap_sql_attribute_names (config self) = true ->
       (forall kv, kv ∈ out ->
          exists k, (k, kv.2) ∈ row /\ kv.1 = sql_attribute_name k) /\
       (forall kv, kv ∈ row -> sql_attribute_name kv.1 ∈ out.*1) /\
       (NoDup (sql_attribute_name <$> row.*1) -> out = renamed <$> row)).
Proof.
  unfold post_process.
  destruct (tap_sql_attribute_names (config self)); eexists; (split; [done|]).
  - split; [done|]. intros _. split; [|split].
    + intros kv Hin. rewrite rename_fields_fold in Hin.
      apply rename_fold_elem in Hin as [Hin|?]; [|done].
      by apply elem_of_nil in Hin.
    + intros kv Hin. rewrite rename_fields_fold. by apply rename_fold_keys.
    + intros Hnd. rewrite rename_fields_fold. by rewrite rename_fold_fresh.
  - by split.
Qed.

(** ** The stream on concrete inputs *)

Module Runs.
Import Examples.

Local Abbreviation get_url_params :=
  (get_url_params (parser := Reference.pendulum) (decoder := Reference.urllib)).
Local Abbreviation get_starting_timestamp :=
  (get_starting_timestamp (parser := Reference.pendulum)).
Local Abbreviation post_process :=
  (post_process (sanitizer := Reference.utils)).

(** A stored row version 42 under the non-timestamp key "versionnumber":
    the call returns parameters, with 42 as the [$filter] bound, and
    raises nothing. *)
Lemma non_timestamp_key_error_is_swallowed :
  is_timestamp_replication_key versioned = false /\
  outcome (get_url_params versioned (Some (PInt 42)) None) =
    inr (<["$filter" := "versionnumber ge 42"]>
           (<["$orderby" := "versionnumber asc"]> ∅)) /\
  ~ exists e, outcome (get_url_params versioned (Some (PInt 42)) None) = inl e.
Proof.
  split; [reflexivity|]. split; [reflexivity|].
  intros [e He]. vm_compute in He. discriminate He.
Qed.

Lemma non_timestamp_key_error_is_handled_run :
  is_timestamp_replication_key versioned = false /\
  outcome (get_url_params versioned (Some (PInt 42)) None) =
    inr (merge_custom_params versioned
           (replication_params versioned (Some (PInt 42)))).
Proof.
  split; [reflexivity|].
  apply (non_timestamp_key_error_is_handled
           (parser := Reference.pendulum) (decoder := Reference.urllib)
           versioned (PInt 42)).
  reflexivity.
Defined.

(** A stored bookmark that is no timestamp, under a timestamp-typed key:
    the parser's error is handled and the text becomes the [$filter]
    bound. *)
Lemma unparseable_bookmark_becomes_the_floor :
  is_timestamp_replication_key accounts = true /\
  Reference.parse (PStr "not-a-timestamp") =
    inl (Exn ParserError "Unable to parse string [not-a-timestamp]") /\
  outcome (get_url_params accounts (Some (PStr "not-a-timestamp")) None) =
    inr (<["$filter" := "modifiedon ge not-a-timestamp"]>
           (<["$orderby" := "modifiedon asc"]> ∅)).
Proof. repeat split; reflexivity. Qed.

Lemma unparseable_bookmark_is_handled_run :
  is_timestamp_replication_key accounts = true /\
  Reference.parse (PStr "not-a-timestamp") =
    inl (Exn ParserError "Unable to parse string [not-a-timestamp]") /\
  outcome (get_starting_timestamp accounts (Some (PStr "not-a-timestamp"))) =
    inl (Exn ParserError "Unable to parse string [not-a-timestamp]").
Proof.
  split; [reflexivity|]. split; [reflexivity|].
  apply (unparseable_bookmark_is_handled
           (parser := Reference.pendulum) (decoder := Reference.urllib)
           accounts (PStr "not-a-timestamp")); reflexivity.
Defined.

(** No stored bookmark and the start date "not-a-date": a warning is
    logged and the first request filters on the malformed text. *)
Lemma malformed_start_date_is_sent :
  start_date misdated = "not-a-date" /\
  Reference.parse (PStr "not-a-date") =
    inl (Exn ParserError "Unable to parse string [not-a-date]") /\
  logs (get_url_params misdated None None) =
    [LogWarning "Invalid start_date format: not-a-date";
     LogInfoParams (<["$filter" := "modifiedon ge not-a-date"]>
                      (<["$orderby" := "modifiedon asc"]> ∅))] /\
  outcome (get_url_params misdated None None) =
    inr (<["$filter" := "modifiedon ge not-a-date"]>
           (<["$orderby" := "modifiedon asc"]> ∅)).
Proof. repeat split; reflexivity. Qed.

Lemma malformed_start_date_is_the_floor_run :
  PyStr.truthy (start_date misdated) = true /\
  Reference.parse (PStr (start_date misdated)) =
    inl (Exn ParserError "Unable to parse string [not-a-date]") /\
  get_starting_timestamp misdated None =
    ([LogWarning "Invalid start_date format: not-a-date"], inr None).
Proof.
  split; [reflexivity|]. split; [reflexivity|].
  apply (malformed_start_date_is_the_floor
           (parser := Reference.pendulum) (decoder := Reference.urllib)
           misdated (Exn ParserError "Unable to parse string [not-a-date]"));
    reflexivity.
Defined.

Lemma token_params_run :
  outcome (get_url_params annotated None (Some token)) =
    inr (<["$skiptoken" := "<cookie pagenumber=2/>"]>
           (<["$orderby" := "modifiedon asc"]> ∅)).
Proof.
  apply (token_params_are_exactly_the_token_query
           (parser := Reference.pendulum) (decoder := Reference.urllib)
           annotated None token).
  intros v e Hv. discriminate Hv.
Defined.

Lemma first_request_from_start_date_run :
  sc_start_date accounts_config = Some "2024-01-01" /\
  sc_replication_key accounts_config = Some "modifiedon" /\
  sc_query_params accounts_config = None /\
  Reference.parse (PStr "2024-01-01") =
    inr (ParsedDateTime (mkDateTime 2024 1 1 0 0 0 0) 0) /\
  outcome (get_url_params accounts None None) =
    inr (<["$filter" := "modifiedon ge 2024-01-01T00:00:00.000000Z"]>
           (<["$orderby" := "modifiedon asc"]> ∅)).
Proof.
  repeat (split; [reflexivity|]).
  apply (first_request_from_start_date
           (parser := Reference.pendulum) (decoder := Reference.urllib)
           tap accounts_config "accounts" true 0); reflexivity.
Defined.

Lemma custom_filter_is_anded_run :
  let existing := "modifiedon ge 2024-01-01T00:00:00.000000Z" in
  let params :=
    merge_custom_params annotated
      (replication_params annotated (Some (PStr "2024-01-01T00:00:00.000000Z"))) in
  last_run_date (parser := Reference.pendulum) annotated None =
    ([], inr (Some (PStr "2024-01-01T00:00:00.000000Z"))) /\
  outcome (get_url_params annotated None None) = inr params /\
  params !! "$filter" =
    Some "(modifiedon ge 2024-01-01T00:00:00.000000Z) and (objectidtypecode eq 'contact')".
Proof.
  intros existing params.
  split; [reflexivity|]. split; [reflexivity|].
  apply (custom_filter_is_anded
           (parser := Reference.pendulum) (decoder := Reference.urllib)
           annotated None [] (Some (PStr "2024-01-01T00:00:00.000000Z"))
           existing params); reflexivity.
Defined.



Lemma records_are_the_value_elements_run :
  dict_get [("@odata.context", JStr "accounts");
            ("value", JArr [JObj [("name", JStr "a")]; JObj [("name", JStr "b")]])]
           "value" =
    Some (JArr [JObj [("name", JStr "a")]; JObj [("name", JStr "b")]]) /\
  parse_response (slicer := Reference.jsonpath_ng) accounts page =
    [JObj [("name", JStr "a")]; JObj [("name", JStr "b")]].
Proof.
  split; [reflexivity|].
  apply (records_are_the_value_elements (slicer := Reference.jsonpath_ng)
           tap accounts_config "accounts" true).
  reflexivity.
Defined.

Lemma post_process_keeps_every_record_run :
  exists out, post_process accounts raw_row = Some out.
Proof.
  destruct (post_process_keeps_every_record
              (sanitizer := Reference.utils) accounts raw_row)
    as (out & Hout & _).
  exists out. exact Hout.
Defined.

Example post_process_raw_row :
  post_process accounts raw_row =
    Some [("_odata_etag", JStr "W/1"); ("full_name", JStr "Ada L.");
          ("_2fa", JBool true)].
Proof. reflexivity. Qed.

End Runs.

(** * Further properties of the stream *)

(** ** How a request can fail, and what it logs *)

#[local] Set Warnings "-clear-no-such-hyp".

Section Outcomes.
Context {parser : PendulumParse} {decoder : Unquote}.

(** The first block of [get_url_params], case by case. *)
Lemma last_run_date_cases self state :
  last_run_date self state =
    match state with
    | Some v =>
        if is_timestamp_replication_key self then
          match pendulum_parse v with
          | inr (ParsedDateTime dt _) => ([], inr (Some (PStr (strftime dt))))
          | inr (ParsedSpan true) => ([], inr (Some v))
          | inr (ParsedSpan false) =>
              ([], inr (if PyStr.truthy (start_date self)
                        then Some (PStr (start_date self)) else None))
          | inl e =>
              if is_ValueError_or_AttributeError e
              then ([], inr (Some v)) else ([], inl e)
          end
        else ([], inr (Some v))
    | None =>
        if PyStr.truthy (start_date self) then
          match pendulum_parse (PStr (start_date self)) with
          | inr (ParsedDateTime dt _) => ([], inr (Some (PStr (strftime dt))))
          | inr (ParsedSpan _) => ([], inr (Some (PStr (start_date self))))
          | inl e =>
              ([LogWarning ("Invalid start_date format: " +:+ start_date self)],
               inr (Some (PStr (start_date self))))
          end
        else ([], inr None)
    end.
Proof.
  destruct state as [v|].
  - destruct (is_timestamp_replication_key self) eqn:Hts;
      [|by apply last_run_date_not_timestamp].
    destruct (pendulum_parse v) as [e|[dt tz|[]]] eqn:Hp.
    + destruct (is_ValueError_or_AttributeError e) eqn:He.
      * by apply last_run_date_stored_caught with e.
      * by apply last_run_date_stored_uncaught.
    + by apply last_run_date_stored_parsed with tz.
    + by apply last_run_date_stored_span.
    + by apply last_run_date_stored_falsy.
  - destruct (PyStr.truthy (start_date self)) eqn:Hsd;
      [|by apply last_run_date_nothing].
    destruct (pendulum_parse (PStr (start_date self)))
      as [e|[dt tz|nonzero]] eqn:Hp.
    + by apply last_run_date_bad_start_date with e.
    + by apply last_run_date_start_date_parsed with tz.
    + by apply last_run_date_start_date_span with nonzero.
Qed.

Ltac stored_cases self v :=
  destruct (is_timestamp_replication_key self);
  [destruct (pendulum_parse v) as [?e|[?dt ?tz|[]]];
   [destruct (is_ValueError_or_AttributeError _)| | |]|].

Ltac unstored_cases self :=
  destruct (PyStr.truthy (start_date self)) eqn:?;
  [destruct (pendulum_parse (PStr (start_date self)))
     as [?e|[?dt ?tz|?]] eqn:?|].

(** [get_url_params] in terms of its first block. *)
Lemma get_url_params_cases self state tok :
  get_url_params self state tok =
    match last_run_date self state with
    | (w, inl e) => (w, inl e)
    | (w, inr last) =>
        match tok with
        | Some token =>
            let params := dict_of_pairs (parse_qsl (query token)) in
            (w ++ [LogInfo (query token); LogInfoParams params], inr params)
        | None =>
            let params :=
              merge_custom_params self (replication_params self last) in
            (w ++ [LogInfoParams params], inr params)
        end
    end.
Proof.
  destruct (last_run_date self state) as [w [e|last]] eqn:Hl.
  - by apply get_url_params_raises.
  - destruct tok as [token|].
    + by apply (get_url_params_next_page _ _ _ last).
    + by apply (get_url_params_first_page _ _ _ last).
Qed.

(** X1. [get_url_params] raises in one situation only, on the first page as on
    a later one: the replication key is timestamp-typed and the parser
    raises, on the stored value, an error that is neither a [ValueError] nor
    an [AttributeError]; that error is the one raised. *)
Theorem get_url_params_raises_iff self state tok e :
  outcome (get_url_params self state tok) = inl e <->
  exists v, state = Some v /\ is_timestamp_replication_key self = true /\
            pendulum_parse v = inl e /\
            is_ValueError_or_AttributeError e = false.
Proof.
  split.
  - rewrite get_url_params_cases.
    destruct (last_run_date self state) as [w [e'|last]] eqn:Hl.
    + intros [= ->]. by apply last_run_date_raises with w.
    + by destruct tok.
  - intros (v & -> & Hts & Hp & He).
    by rewrite (get_url_params_raises _ _ tok _ _
                  (last_run_date_stored_uncaught _ _ _ Hts Hp He)).
Qed.

(** X2. A warning is logged by [get_url_params] exactly when there is no stored
    value and the configured start date is rejected by the parser; it is the
    "Invalid start_date format" message, on the first page as on a later
    one. *)
Theorem get_url_params_warns_iff self state tok msg :
  LogWarning msg ∈ logs (get_url_params self state tok) <->
  state = None /\ PyStr.truthy (start_date self) = true /\
  (exists e, pendulum_parse (PStr (start_date self)) = inl e) /\
  msg = "Invalid start_date format: " +:+ start_date self.
Proof.
  rewrite get_url_params_cases, last_run_date_cases.
  destruct state as [v|].
  - assert (Hno : forall m : M (gmap string string),
              logs m = [] \/ (exists x, logs m = [LogInfoParams x]) \/
              (exists q x, logs m = [LogInfo q; LogInfoParams x]) ->
              LogWarning msg ∉ logs m).
    { intros m [->|[[x ->]|(q & x & ->)]];
        rewrite ?elem_of_cons, ?elem_of_nil; naive_solver. }
    split; [|by intros [? _]].
    intros Hin. exfalso. revert Hin. apply Hno.
    stored_cases self v; destruct tok; cbn; eauto.
  - unstored_cases self; destruct tok; cbn;
      rewrite ?elem_of_cons, ?elem_of_nil; naive_solver.
Qed.

(** X3. Whenever [get_url_params] returns, the parameter set it returns is the
    last entry it logged; whenever it raises, it has logged nothing. *)
Theorem get_url_params_logs_its_result self state tok :
  (forall params,
     outcome (get_url_params self state tok) = inr params ->
     last (logs (get_url_params self state tok)) = Some (LogInfoParams params)) /\
  (forall e,
     outcome (get_url_params self state tok) = inl e ->
     logs (get_url_params self state tok) = []).
Proof.
  rewrite get_url_params_cases, last_run_date_cases. split.
  - intros params.
    destruct state as [v|]; [stored_cases self v | unstored_cases self];
      destruct tok; cbn; by intros [= <-].
  - intros e.
    destruct state as [v|]; [stored_cases self v | unstored_cases self];
      destruct tok; cbn; done.
Qed.

(** X4. Any object that [get_starting_timestamp] returns is what the parser
    read from the stored value, under a timestamp-typed key, or, without a
    stored value, from a non-empty start date. *)
Theorem get_starting_timestamp_provenance self state p :
  outcome (get_starting_timestamp self state) = inr (Some p) ->
  (exists v, state = Some v /\ is_timestamp_replication_key self = true /\
             pendulum_parse v = inr p) \/
  (state = None /\ PyStr.truthy (start_date self) = true /\
   pendulum_parse (PStr (start_date self)) = inr p).
Proof.
  destruct state as [v|].
  - destruct (is_timestamp_replication_key self) eqn:Hts.
    + rewrite (get_starting_timestamp_stored _ _ Hts). cbn.
      destruct (pendulum_parse v) as [e|p'] eqn:Hp; [done|].
      intros [= ->]. left. eauto.
    + by rewrite get_starting_timestamp_not_timestamp.
  - unfold get_starting_timestamp. cbn.
    destruct (PyStr.truthy (start_date self)) eqn:Hsd; [|done].
    destruct (pendulum_parse (PStr (start_date self))) as [e|p'] eqn:Hp;
      cbn; [done|].
    intros [= ->]. by right.
Qed.

(** X5. Without a stored value and without a start date the first request has
    no floor: it carries the ascending [$orderby] when a replication key is
    configured, no replication [$filter], and the custom parameters. *)
Theorem first_request_without_floor self :
  PyStr.truthy (start_date self) = false ->
  outcome (get_url_params self None None) =
    inr (merge_custom_params self (replication_params self None)) /\
  replication_params self None !! "$filter" = None /\
  (replication_key_truthy self = true ->
   replication_params self None =
     <["$orderby" := replication_key_str self +:+ " asc"]> ∅).
Proof.
  intros Hsd. split; [|split].
  - by rewrite (get_url_params_first_page _ _ _ _ (last_run_date_nothing _ Hsd)).
  - unfold replication_params.
    destruct (replication_key_truthy self); [|done].
    by rewrite lookup_insert_ne.
  - intros Hk. unfold replication_params. by rewrite Hk.
Qed.

(** X6. When [get_starting_replication_key_value] returns a falsy value
    other than [None] (the integer 0, the empty string), under a key that is
    not timestamp-typed or with a parse error that is handled, the first
    request has no replication [$filter] and the start date does not step
    in: it is the request of a stream without any floor. *)
Theorem falsy_bookmark_is_no_floor self v :
  is_timestamp_replication_key self = false \/
  (exists e, pendulum_parse v = inl e /\
             is_ValueError_or_AttributeError e = true) ->
  pyval_truthy v = false ->
  outcome (get_url_params self (Some v) None) =
    inr (merge_custom_params self (replication_params self None)).
Proof.
  intros Hcase Hv.
  assert (Hl : last_run_date self (Some v) = ([], inr (Some v))).
  { destruct (is_timestamp_replication_key self) eqn:Hts.
    - destruct Hcase as [?|(e & Hp & He)]; [done|].
      by apply last_run_date_stored_caught with e.
    - by apply last_run_date_not_timestamp. }
  rewrite (get_url_params_first_page _ _ _ _ Hl). cbn.
  unfold replication_params. by rewrite Hv.
Qed.

End Outcomes.

(** ** The custom query parameters *)

Lemma fold_merge_dom (l : list string) :
  forall (params : gmap string string) k,
  is_Some (fold_left merge_custom_param l params !! k) ->
  is_Some (params !! k) \/ k ∈ (omap (PyStr.split1 "=") l).*1.
Proof.
  induction l as [|param l IH]; intros params k Hk; [by left|].
  cbn [fold_left] in Hk. apply IH in Hk as [Hk|Hk].
  - rewrite merge_custom_param_split1 in Hk. cbn [omap list_omap].
    destruct (PyStr.split1 "=" param) as [[k0 v0]|]; [|by left].
    destruct (decide (k0 = k)) as [->|Hne]; [right; by left|].
    left. case_bool_decide; subst.
    + destruct (params !! "$filter"); by rewrite lookup_insert_ne in Hk.
    + by rewrite lookup_insert_ne in Hk.
  - right. cbn [omap list_omap].
    destruct (PyStr.split1 "=" param) as [[k0 v0]|]; [by right | done].
Qed.

Lemma fold_merge_mono (l : list string) :
  forall (params : gmap string string) k,
  is_Some (params !! k) ->
  is_Some (fold_left merge_custom_param l params !! k).
Proof.
  induction l as [|param l IH]; intros params k Hk; [done|].
  cbn [fold_left]. apply IH. rewrite merge_custom_param_split1.
  destruct (PyStr.split1 "=" param) as [[k0 v0]|]; [|done].
  case_bool_decide; [destruct (params !! "$filter") eqn:Hf|];
    apply lookup_insert_is_Some'; by right.
Qed.

Lemma fold_merge_skips (l : list string) : forall params : gmap string string,
  fold_left merge_custom_param l params =
  fold_left merge_custom_param
    (filter (fun piece => PyStr.contains "=" piece = true) l) params.
Proof.
  induction l as [|param l IH]; intros params; [done|].
  rewrite filter_cons. cbn [fold_left].
  destruct (decide (PyStr.contains "=" param = true)) as [Hc|Hc].
  - cbn [fold_left]. apply IH.
  - unfold merge_custom_param at 2.
    apply not_true_is_false in Hc. rewrite Hc. apply IH.
Qed.

(** Without a [$filter] to start from, the first custom one is taken as it
    is and the later ones are and-ed to it. *)
Lemma fold_merge_filter_fresh (l : list string) :
  forall params : gmap string string,
  params !! "$filter" = None ->
  fold_left merge_custom_param l params !! "$filter" =
    match values_of "$filter" (omap (PyStr.split1 "=") l) with
    | [] => None
    | value :: rest => Some (fold_left and_filter rest value)
    end.
Proof.
  induction l as [|param l IH]; intros params Hf; [done|].
  cbn [fold_left]. rewrite merge_custom_param_split1. cbn [omap list_omap].
  destruct (PyStr.split1 "=" param) as [[k v]|]; [|by apply IH].
  unfold values_of. rewrite filter_cons. cbn [fst snd].
  case_bool_decide as Hk; subst.
  - rewrite Hf, decide_True by done. cbn [fmap list_fmap snd].
    apply fold_merge_filter. by rewrite lookup_insert_eq.
  - rewrite decide_False by done. apply IH. by rewrite lookup_insert_ne.
Qed.

Lemma replication_params_dom self last k :
  is_Some (replication_params self last !! k) ->
  replication_key_truthy self = true /\ (k = "$orderby" \/ k = "$filter").
Proof.
  unfold replication_params.
  destruct (replication_key_truthy self);
    [|rewrite lookup_empty; by intros [? ?]].
  intros Hk. split; [done|].
  destruct (decide (k = "$orderby")) as [?|Hne1]; [by left|].
  destruct (decide (k = "$filter")) as [?|Hne2]; [by right|].
  destruct last as [v|]; [destruct (pyval_truthy v)|];
    rewrite ?lookup_insert_ne, lookup_empty in Hk by done;
    by destruct Hk.
Qed.

Lemma replication_params_orderby self last :
  replication_key_truthy self = true ->
  replication_params self last !! "$orderby" =
    Some (replication_key_str self +:+ " asc").
Proof.
  intros Hk. unfold replication_params. rewrite Hk.
  destruct last as [v|]; [destruct (pyval_truthy v)|];
    [rewrite lookup_insert_ne by done|..]; by rewrite lookup_insert_eq.
Qed.

Lemma overridden_absent key (entries : list (string * string)) :
  forall base, values_of key entries = [] -> overridden key entries base = base.
Proof.
  unfold overridden, values_of.
  induction entries as [|[k v] entries IH]; intros base; [done|].
  rewrite filter_cons. cbn [fold_left fst snd].
  destruct (decide (k = key)) as [->|Hne]; [done|].
  rewrite bool_decide_false by done. apply IH.
Qed.

Lemma merge_custom_params_fold self (params : gmap string string) :
  merge_custom_params self params =
    fold_left merge_custom_param
      (PyStr.split "&" (custom_query_params self)) params.
Proof.
  unfold merge_custom_params.
  by destruct (custom_query_params self).
Qed.

Lemma contains_app (sep : ascii) (a b : string) :
  PyStr.contains sep (a +:+ b) = PyStr.contains sep a || PyStr.contains sep b.
Proof.
  induction a as [|c a IH]; [done|].
  change (String c a +:+ b) with (String c (a +:+ b)).
  cbn [PyStr.contains]. by destruct (Ascii.eqb c sep).
Qed.

Lemma split_no_sep (sep : ascii) (a : string) :
  PyStr.contains sep a = false -> PyStr.split sep a = [a].
Proof.
  induction a as [|c a IH]; cbn [PyStr.contains PyStr.split]; [done|].
  destruct (Ascii.eqb c sep); [done|]. intros Hc. by rewrite IH.
Qed.

Lemma split_app_sep (sep : ascii) (a b : string) :
  PyStr.contains sep a = false ->
  PyStr.split sep (a +:+ String sep b) = a :: PyStr.split sep b.
Proof.
  induction a as [|c a IH].
  - intros _. change ("" +:+ String sep b) with (String sep b).
    cbn [PyStr.split]. by rewrite Ascii.eqb_refl.
  - change (String c a +:+ String sep b) with (String c (a +:+ String sep b)).
    cbn [PyStr.contains PyStr.split].
    destruct (Ascii.eqb c sep); [done|]. intros Hc. by rewrite IH.
Qed.

Lemma split1_app_sep (sep : ascii) (a b : string) :
  PyStr.contains sep a = false ->
  PyStr.split1 sep (a +:+ String sep b) = Some (a, b).
Proof.
  induction a as [|c a IH].
  - intros _. change ("" +:+ String sep b) with (String sep b).
    cbn [PyStr.split1]. by rewrite Ascii.eqb_refl.
  - change (String c a +:+ String sep b) with (String c (a +:+ String sep b)).
    cbn [PyStr.contains PyStr.split1].
    destruct (Ascii.eqb c sep); [done|]. intros Hc. by rewrite IH.
Qed.

Lemma dict_of_pairs_lookup (pairs : list (string * string)) k :
  dict_of_pairs pairs !! k = last_assigned k pairs.
Proof.
  unfold dict_of_pairs, last_assigned.
  rewrite <- (lookup_empty (M := gmap string) (A := string) k).
  generalize (∅ : gmap string string).
  induction pairs as [|[k' v'] pairs IH]; intros d; [done|].
  cbn [fold_left fst snd]. rewrite IH. f_equal.
  case_bool_decide; subst.
  - by rewrite lookup_insert_eq.
  - by rewrite lookup_insert_ne.
Qed.

(** X7. A custom query string written as [k1=v1&k2=v2&...] is read back as
    exactly these entries, in order, provided no key contains [&] or [=] and
    no value contains [&]; a value may contain [=]. *)
Theorem custom_entries_render (entries : list (string * string)) :
  Forall (fun kv => PyStr.contains "&" kv.1 = false /\
                    PyStr.contains "=" kv.1 = false /\
                    PyStr.contains "&" kv.2 = false) entries ->
  custom_entries (render_entries entries) = entries.
Proof.
  unfold custom_entries, render_entries.
  induction 1 as [|[k v] entries (Hk1 & Hk2 & Hv) Hall IH]; [done|].
  cbn [fst snd] in *.
  assert (Hpiece : PyStr.contains "&" (k +:+ "=" +:+ v) = false).
  { rewrite contains_app, Hk1. cbn. exact Hv. }
  assert (Hcut : PyStr.split1 "=" (k +:+ "=" +:+ v) = Some (k, v))
    by (by apply (split1_app_sep "=" k v)).
  destruct entries as [|kv' entries].
  - cbn [fmap list_fmap join fst snd].
    rewrite (split_no_sep _ _ Hpiece). cbn [omap list_omap]. by rewrite Hcut.
  - change (join "&" ((fun kv => kv.1 +:+ "=" +:+ kv.2) <$> (k, v) :: kv' :: entries))
      with ((k +:+ "=" +:+ v) +:+
            String "&" (join "&" ((fun kv => kv.1 +:+ "=" +:+ kv.2) <$> kv' :: entries))).
    rewrite (split_app_sep _ _ _ Hpiece). cbn [omap list_omap].
    by rewrite Hcut, IH.
Qed.

Section CustomParams.
Context {parser : PendulumParse} {decoder : Unquote}.

(** X8. The first request never carries a parameter of its own invention: each
    key is a key of the custom query string, or, when a replication key is
    configured, [$orderby] or [$filter]. *)
Theorem first_request_keys self state params k :
  outcome (get_url_params self state None) = inr params ->
  is_Some (params !! k) ->
  k ∈ (custom_entries (custom_query_params self)).*1 \/
  (replication_key_truthy self = true /\ (k = "$orderby" \/ k = "$filter")).
Proof.
  rewrite get_url_params_cases.
  destruct (last_run_date self state) as [w [e|last]]; [done|].
  cbn. intros [= <-]. rewrite merge_custom_params_fold.
  intros [Hk|Hk]%fold_merge_dom; [right | by left].
  by apply replication_params_dom with last.
Qed.

(** X9. With a replication key configured, the first request's [$orderby]
    is "<key> asc" unless the custom query string has [$orderby] entries, in
    which case the last of them replaces it; and a truthy floor is always
    the first operand of the request's [$filter], as "<key> ge <floor>",
    with the custom [$filter] values and-ed after it in order. *)
Theorem first_request_replication_part self state w last params :
  last_run_date self state = (w, inr last) ->
  outcome (get_url_params self state None) = inr params ->
  replication_key_truthy self = true ->
  let entries := custom_entries (custom_query_params self) in
  params !! "$orderby" =
    overridden "$orderby" entries (Some (replication_key_str self +:+ " asc")) /\
  (values_of "$orderby" entries = [] ->
   params !! "$orderby" = Some (replication_key_str self +:+ " asc")) /\
  (forall v, last = Some v -> pyval_truthy v = true ->
     params !! "$filter" =
       Some (fold_left and_filter (values_of "$filter" entries)
               (replication_key_str self +:+ " ge " +:+ pyval_str v))).
Proof.
  intros Hl Hout Hk entries.
  rewrite (get_url_params_first_page _ _ _ _ Hl) in Hout. cbn in Hout.
  injection Hout as <-.
  assert (Horder :
    merge_custom_params self (replication_params self last) !! "$orderby" =
      overridden "$orderby" entries
        (Some (replication_key_str self +:+ " asc"))).
  { rewrite merge_custom_params_fold, fold_merge_other by done.
    by rewrite (replication_params_orderby _ _ Hk). }
  split; [done|]. split.
  - intros Hnone. by rewrite Horder, overridden_absent.
  - intros v -> Hv.
    by destruct (custom_filter_is_first self state w (Some v) _ Hl
                   (replication_params_filter self v Hk Hv)) as [_ ?].
Qed.

(** X10. The pieces of the custom query string that contain no [=] are skipped:
    merging gives what it would give had they been left out. *)
Theorem custom_pieces_without_eq_are_skipped self (params : gmap string string) :
  merge_custom_params self params =
    fold_left merge_custom_param
      (filter (fun piece => PyStr.contains "=" piece = true)
              (PyStr.split "&" (custom_query_params self)))
      params.
Proof. rewrite merge_custom_params_fold. apply fold_merge_skips. Qed.

(** X11. When replication computed no [$filter] (no replication key, or no
    floor), a custom [$filter] is sent as written, without parentheses, and
    further custom [$filter] entries are and-ed to it; with no custom
    [$filter] there is none at all. *)
Theorem custom_filter_alone self state w last params :
  last_run_date self state = (w, inr last) ->
  replication_params self last !! "$filter" = None ->
  outcome (get_url_params self state None) = inr params ->
  params !! "$filter" =
    match values_of "$filter" (custom_entries (custom_query_params self)) with
    | [] => None
    | value :: rest => Some (fold_left and_filter rest value)
    end.
Proof.
  intros Hl Hf. rewrite (get_url_params_first_page _ _ _ _ Hl). cbn.
  intros [= <-]. rewrite merge_custom_params_fold.
  by apply fold_merge_filter_fresh.
Qed.

(** X12. When the query of a continuation token names a key more than once, the
    last occurrence is the one sent. *)
Theorem token_last_occurrence_wins self state token params k :
  outcome (get_url_params self state (Some token)) = inr params ->
  params !! k = last_assigned k (parse_qsl (query token)).
Proof.
  rewrite get_url_params_cases.
  destruct (last_run_date self state) as [w [e|last]]; [done|].
  cbn. intros [= <-]. apply dict_of_pairs_lookup.
Qed.

End CustomParams.

(** ** Renamed records *)

Section Renaming.
Context {sanitizer : SqlAttributeName} {V : Type}.
Implicit Types (row acc d : list (string * V)).

Lemma dict_get_set d k (v : V) k' :
  dict_get (dict_set d k v) k' =
    if bool_decide (k = k') then Some v else dict_get d k'.
Proof.
  induction d as [|[k0 v0] d IH]; cbn [dict_set dict_get]; [done|].
  destruct (decide (k0 = k)) as [->|Hne].
  - rewrite bool_decide_true by done. cbn [dict_get].
    by case_bool_decide.
  - rewrite (bool_decide_false (k0 = k)) by done. cbn [dict_get]. rewrite IH.
    repeat case_bool_decide; congruence.
Qed.

Lemma dict_set_length d k (v : V) :
  (length (dict_set d k v) <= S (length d))%nat.
Proof.
  induction d as [|[k0 v0] d IH]; cbn [dict_set]; [done|].
  case_bool_decide; cbn [length]; lia.
Qed.

Lemma rename_fold_get row : forall acc k',
  dict_get (fold_left rename_step row acc) k' =
    fold_left (fun o kv =>
                 if bool_decide (sql_attribute_name kv.1 = k')
                 then Some kv.2 else o)
              row (dict_get acc k').
Proof.
  induction row as [|[k v] row IH]; intros acc k'; [done|].
  cbn [fold_left]. rewrite IH. f_equal. apply dict_get_set.
Qed.

Lemma rename_fold_length row : forall acc,
  (length (fold_left rename_step row acc) <= length acc + length row)%nat.
Proof.
  induction row as [|kv row IH]; intros acc; cbn [fold_left length]; [lia|].
  specialize (IH (rename_step acc kv)).
  pose proof (dict_set_length acc (sql_attribute_name kv.1) kv.2).
  unfold rename_step in *. lia.
Qed.

End Renaming.

(** X13. With sanitization enabled the output record has no two fields of the
    same name, whatever the input, and never more fields than the input. *)
Theorem post_process_names_are_distinct {sanitizer : SqlAttributeName} self (row out : list (string * json)) :
  tap_sql_attribute_names (config self) = true ->
  post_process self row = Some out ->
  NoDup out.*1 /\ (length out <= length row)%nat.
Proof.
  unfold post_process. intros -> [= <-]. rewrite rename_fields_fold. split.
  - by apply rename_fold_NoDup, NoDup_nil.
  - apply (rename_fold_length row []).
Qed.

(** X14. When several input fields are sanitized to the same name, the output
    holds under that name the value of the last of them; a name that no
    input field is sanitized to is absent. *)
Theorem post_process_last_field_wins {sanitizer : SqlAttributeName} self (row out : list (string * json)) k' :
  tap_sql_attribute_names (config self) = true ->
  post_process self row = Some out ->
  dict_get out k' = last_renamed k' row.
Proof.
  unfold post_process. intros -> [= <-].
  rewrite rename_fields_fold, rename_fold_get.
  unfold last_renamed, last_assigned. cbn [dict_get].
  generalize (@None json).
  induction row as [|kv row IH]; intros o; [done|].
  cbn [fold_left fmap list_fmap]. apply IH.
Qed.

(** X15. A record whose field names the sanitizer leaves alone is returned as it
    is, in the same order (the names of a record are distinct). *)
Theorem post_process_clean_record {sanitizer : SqlAttributeName} self (row : list (string * json)) :
  NoDup row.*1 ->
  Forall (fun k => sql_attribute_name k = k) row.*1 ->
  post_process self row = Some row.
Proof.
  intros Hnd Hclean. unfold post_process.
  destruct (tap_sql_attribute_names (config self)); [|done].
  assert (Hkeys : sql_attribute_name <$> row.*1 = row.*1).
  { clear Hnd. induction Hclean as [|k ks Hk _ IH]; [done|].
    cbn. by rewrite Hk, IH. }
  rewrite rename_fields_fold, rename_fold_fresh by (cbn; by rewrite Hkeys).
  cbn [app]. f_equal. clear Hnd Hkeys.
  induction row as [|[k v] row IH]; [done|].
  apply Forall_cons in Hclean as [Hk Hclean]. cbn in Hk.
  cbn [fmap list_fmap]. unfold renamed at 1. cbn [fst snd].
  rewrite Hk. f_equal. by apply IH.
Qed.

(** ** Headers and construction *)

(** X16. [http_headers] touches the [Prefer] header only: every other header is
    the base class's. With annotations requested, [Prefer] asks for all
    annotations whatever the base class had put there; otherwise the headers
    are the base class's, a [Prefer] of theirs included. *)
Theorem http_headers_only_sets_prefer self (base : gmap string string) :
  (forall k, k ≠ "Prefer" -> http_headers self base !! k = base !! k) /\
  (tap_annotations (config self) = true ->
   http_headers self base !! "Prefer" =
     Some ("odata.include-annotations=" +:+ dquote +:+ "*" +:+ dquote)) /\
  (tap_annotations (config self) = false -> http_headers self base = base) /\
  http_headers self (http_headers self base) = http_headers self base.
Proof.
  unfold http_headers.
  destruct (tap_annotations (config self)); repeat split; try done.
  - intros k Hk. by rewrite lookup_insert_ne.
  - intros _. by rewrite lookup_insert_eq.
  - by rewrite insert_insert_eq.
Qed.

(** X17. What [__init__] makes of the two configurations, each key on its
    own: a [replication_key] or a [start_date] present in the stream
    configuration decides, even when its value is empty, so that an empty
    stream-level [replication_key] leaves the stream without replication key
    although the tap names one; the tap's value is used exactly when the
    stream configuration lacks the key. The stream never holds an empty
    replication key, and the custom query string is the stream's own or
    empty. *)
Theorem init_prefers_the_stream_config tap sc entity_set_name key_is_timestamp :
  let self := init tap sc entity_set_name key_is_timestamp in
  let checked k := if PyStr.truthy k then Some k else None in
  replication_key self ≠ Some "" /\
  (replication_key_truthy self = true <-> is_Some (replication_key self)) /\
  (forall k, sc_replication_key sc = Some k -> replication_key self = checked k) /\
  (sc_replication_key sc = None ->
   replication_key self =
     match tap_replication_key tap with
     | Some k => checked k
     | None => None
     end) /\
  (forall sd, sc_start_date sc = Some sd -> start_date self = sd) /\
  (sc_start_date sc = None ->
   start_date self = get_default (tap_start_date tap) "") /\
  custom_query_params self = get_default (sc_query_params sc) "".
Proof.
  intros self checked. unfold self, checked, init, replication_key_truthy. cbn.
  split; [|split; [|split; [|split; [|split; [|split]]]]].
  - by destruct (get_default (sc_replication_key sc)
                   (get_default (tap_replication_key tap) "")).
  - destruct (get_default (sc_replication_key sc)
                (get_default (tap_replication_key tap) "")) eqn:Hk; cbn.
    + split; [done | by intros [? ?]].
    + split; [eauto | done].
  - by intros k ->.
  - intros ->. cbn. by destruct (tap_replication_key tap).
  - by intros sd ->.
  - by intros ->.
  - done.
Qed.

(** ** Further runs on concrete inputs *)

Module MoreRuns.
Import Examples.

Local Abbreviation get_url_params :=
  (get_url_params (parser := Reference.pendulum) (decoder := Reference.urllib)).
Local Abbreviation get_starting_timestamp :=
  (get_starting_timestamp (parser := Reference.pendulum)).
Local Abbreviation last_run_date :=
  (last_run_date (parser := Reference.pendulum)).
Local Abbreviation post_process :=
  (post_process (sanitizer := Reference.utils)).

(** An integer stored under a timestamp-typed key: the parser's [TypeError]
    reaches the caller. *)
Lemma get_url_params_raises_run :
  outcome (get_url_params accounts (Some (PInt 5)) None) =
    inl (Exn TypeError "expected string or bytes-like object").
Proof.
  apply (get_url_params_raises_iff
           (parser := Reference.pendulum) (decoder := Reference.urllib)).
  exists (PInt 5). repeat split; reflexivity.
Defined.

Lemma get_url_params_warns_run :
  LogWarning "Invalid start_date format: not-a-date"
    ∈ logs (get_url_params misdated None (Some token)).
Proof.
  apply (get_url_params_warns_iff
           (parser := Reference.pendulum) (decoder := Reference.urllib)).
  split; [reflexivity|]. split; [reflexivity|]. split; [|reflexivity].
  eexists. reflexivity.
Defined.

Lemma get_url_params_logs_its_result_run :
  outcome (get_url_params accounts None (Some token)) =
    inr (<["$skiptoken" := "<cookie pagenumber=2/>"]>
           (<["$orderby" := "modifiedon asc"]> ∅)) /\
  last (logs (get_url_params accounts None (Some token))) =
    Some (LogInfoParams (<["$skiptoken" := "<cookie pagenumber=2/>"]>
                           (<["$orderby" := "modifiedon asc"]> ∅))).
Proof.
  split; [reflexivity|].
  apply (get_url_params_logs_its_result
           (parser := Reference.pendulum) (decoder := Reference.urllib)).
  reflexivity.
Defined.

Lemma get_starting_timestamp_provenance_run :
  outcome (get_starting_timestamp accounts None) =
    inr (Some (ParsedDateTime (mkDateTime 2024 1 1 0 0 0 0) 0)) /\
  ((exists v, None = Some v /\ is_timestamp_replication_key accounts = true /\
              Reference.parse v =
                inr (ParsedDateTime (mkDateTime 2024 1 1 0 0 0 0) 0)) \/
   (None = (None : option pyval) /\
    PyStr.truthy (start_date accounts) = true /\
    Reference.parse (PStr (start_date accounts)) =
      inr (ParsedDateTime (mkDateTime 2024 1 1 0 0 0 0) 0))).
Proof.
  split; [reflexivity|].
  apply (get_starting_timestamp_provenance (parser := Reference.pendulum)).
  reflexivity.
Defined.

Lemma first_request_without_floor_run :
  PyStr.truthy (start_date versioned) = false /\
  outcome (get_url_params versioned None None) =
    inr (<["$orderby" := "versionnumber asc"]> ∅).
Proof.
  split; [reflexivity|].
  apply (first_request_without_floor
           (parser := Reference.pendulum) (decoder := Reference.urllib)
           versioned).
  reflexivity.
Defined.

(** A stored row version 0: no [$filter] is sent. *)
Lemma falsy_bookmark_is_no_floor_run :
  is_timestamp_replication_key versioned = false /\
  pyval_truthy (PInt 0) = false /\
  outcome (get_url_params versioned (Some (PInt 0)) None) =
    inr (<["$orderby" := "versionnumber asc"]> ∅).
Proof.
  split; [reflexivity|]. split; [reflexivity|].
  apply (falsy_bookmark_is_no_floor
           (parser := Reference.pendulum) (decoder := Reference.urllib)
           versioned (PInt 0)); [by left | reflexivity].
Defined.

Lemma custom_entries_render_run :
  render_entries custom_pairs =
    "$select=name,code&$filter=name eq 'x=y'&$top=50" /\
  custom_entries "$select=name,code&$filter=name eq 'x=y'&$top=50" =
    custom_pairs.
Proof.
  split; [reflexivity|].
  apply (custom_entries_render custom_pairs).
  repeat constructor.
Defined.

Lemma first_request_keys_run :
  outcome (get_url_params lookup_table None None) =
    inr (<["$top" := "50"]>
           (<["$filter" := "statecode eq 0"]>
              (<["$select" := "name,code"]> ∅))) /\
  ("$top" ∈ (custom_entries (custom_query_params lookup_table)).*1 \/
   (replication_key_truthy lookup_table = true /\
    ("$top" = "$orderby" \/ "$top" = "$filter"))).
Proof.
  split; [reflexivity|].
  apply (first_request_keys
           (parser := Reference.pendulum) (decoder := Reference.urllib)
           lookup_table None
           (<["$top" := "50"]>
              (<["$filter" := "statecode eq 0"]>
                 (<["$select" := "name,code"]> ∅))));
    [reflexivity | by exists "50"].
Defined.

Lemma first_request_replication_part_run :
  last_run_date annotated None =
    ([], inr (Some (PStr "2024-01-01T00:00:00.000000Z"))) /\
  replication_key_truthy annotated = true /\
  exists params,
    outcome (get_url_params annotated None None) = inr params /\
    params !! "$orderby" = Some "modifiedon asc" /\
    params !! "$filter" =
      Some "(modifiedon ge 2024-01-01T00:00:00.000000Z) and (objectidtypecode eq 'contact')".
Proof.
  split; [reflexivity|]. split; [reflexivity|].
  eexists. split; [reflexivity|].
  destruct (first_request_replication_part
              (parser := Reference.pendulum) (decoder := Reference.urllib)
              annotated None [] (Some (PStr "2024-01-01T00:00:00.000000Z")) _
              eq_refl eq_refl eq_refl) as (_ & Horder & Hfilter).
  split; [exact (Horder eq_refl) | exact (Hfilter _ eq_refl eq_refl)].
Defined.

Lemma custom_pieces_without_eq_are_skipped_run :
  merge_custom_params lookup_table ∅ =
    fold_left merge_custom_param
      ["$select=name,code"; "$filter=statecode eq 0"; "$top=50"] ∅.
Proof. apply (custom_pieces_without_eq_are_skipped lookup_table ∅). Defined.

(** A stream whose replication is switched off by an empty stream-level
    key: the custom [$filter] is sent as written. *)
Lemma custom_filter_alone_run :
  last_run_date lookup_table None =
    ([], inr (Some (PStr "2023-06-01T00:00:00.000000Z"))) /\
  replication_params lookup_table
    (Some (PStr "2023-06-01T00:00:00.000000Z")) !! "$filter" = None /\
  merge_custom_params lookup_table
    (replication_params lookup_table
       (Some (PStr "2023-06-01T00:00:00.000000Z"))) !! "$filter" =
    Some "statecode eq 0".
Proof.
  split; [reflexivity|]. split; [reflexivity|].
  apply (custom_filter_alone
           (parser := Reference.pendulum) (decoder := Reference.urllib)
           lookup_table None []
           (Some (PStr "2023-06-01T00:00:00.000000Z"))); reflexivity.
Defined.

Lemma token_last_occurrence_wins_run :
  outcome (get_url_params accounts None (Some repeated_token)) =
    inr (<["$skiptoken" := "p2"]> (<["$top" := "10"]> ∅)) /\
  (<["$skiptoken" := "p2"]> (<["$top" := "10"]> ∅) : gmap string string)
    !! "$top" = Some "10".
Proof.
  split; [reflexivity|].
  apply (token_last_occurrence_wins
           (parser := Reference.pendulum) (decoder := Reference.urllib)
           accounts None repeated_token).
  reflexivity.
Defined.

Lemma post_process_names_are_distinct_run :
  tap_sql_attribute_names (config accounts) = true /\
  NoDup ["_odata_etag"; "full_name"; "_2fa"] /\
  (3 <= length raw_row)%nat.
Proof.
  split; [reflexivity|].
  apply (post_process_names_are_distinct (sanitizer := Reference.utils)
           accounts raw_row
           [("_odata_etag", JStr "W/1"); ("full_name", JStr "Ada L.");
            ("_2fa", JBool true)]); reflexivity.
Defined.

Lemma post_process_last_field_wins_run :
  tap_sql_attribute_names (config accounts) = true /\
  dict_get [("_odata_etag", JStr "W/1"); ("full_name", JStr "Ada L.");
            ("_2fa", JBool true)] "full_name" = Some (JStr "Ada L.").
Proof.
  split; [reflexivity|].
  apply (post_process_last_field_wins (sanitizer := Reference.utils)
           accounts raw_row
           [("_odata_etag", JStr "W/1"); ("full_name", JStr "Ada L.");
            ("_2fa", JBool true)] "full_name"); reflexivity.
Defined.

Lemma post_process_clean_record_run :
  post_process accounts clean_row = Some clean_row.
Proof.
  apply (post_process_clean_record (sanitizer := Reference.utils)
           accounts clean_row).
  - apply (bool_decide_unpack _). reflexivity.
  - repeat constructor.
Defined.

Lemma http_headers_only_sets_prefer_run :
  http_headers lookup_table (<["Prefer" := "return=minimal"]> ∅) !! "Prefer" =
    Some ("odata.include-annotations=" +:+ dquote +:+ "*" +:+ dquote).
Proof.
  apply (http_headers_only_sets_prefer lookup_table). reflexivity.
Defined.

(** An empty stream-level replication key beside a tap-level one, and no
    stream-level start date beside a tap-level one. *)
Lemma init_prefers_the_stream_config_run :
  replication_key lookup_table = None /\ start_date lookup_table = "2023-06-01".
Proof.
  pose proof (init_prefers_the_stream_config
                (config lookup_table)
                {| sc_name := Some "countries";
                   sc_query_params :=
                     Some "$select=name,code&novalue&$filter=statecode eq 0&$top=50";
                   sc_start_date := None; sc_replication_key := Some "" |}
                "countries" false) as Hinit.
  cbv zeta in Hinit. destruct Hinit as (_ & _ & Hkey & _ & _ & Hdate & _).
  split; [exact (Hkey "" eq_refl) | exact (Hdate eq_refl)].
Defined.

End MoreRuns.
